(** * Inventory front end: status classification, client-side paging,
      request building, report totals and CSV export.

    A shallow embedding of the JavaScript of the inventory application:
    - the products page script (getStatusBadge, loadProducts with URLSearchParams),
    - static/js/products.js (renderProductsTable, updatePagination, changePage),
    - the reports script of static/js/dashboard.js (loadSummaryStats, exportData),
    - the InventoryAPI client (getProducts),
    and of the listing contract of the server, which is taken from the
    specification because the Flask code is not part of the sources.

    Conventions.  JavaScript numbers that hold counts, page numbers and stock
    levels are integers of [Z].  A price is a DECIMAL(10,2) amount and is
    carried exactly, as an integer number of hundredths of a shilling; where
    a script computes with prices, the numbers are IEEE 754 doubles, every
    operation rounded to the nearest double ([Double]).
    Strings are [string]; the DOM is a record of the few nodes the scripts
    touch, each node optional because every script guards its selectors. *)

From Stdlib Require Import ZArith List String Ascii Bool Lia DecimalString SpecFloat.
Import ListNotations.

Local Open Scope string_scope.
Local Open Scope Z_scope.

(** ** Text *)

Module Text.

(** The double quote and the line feed, which the templates contain. *)
Definition dq : string := String (ascii_of_nat 34) EmptyString.
Definition nl : string := String (ascii_of_nat 10) EmptyString.

Definition comma : ascii := ascii_of_nat 44.
Definition newline : ascii := ascii_of_nat 10.

Fixpoint spaces (n : nat) : string :=
  match n with
  | O => EmptyString
  | S k => String (ascii_of_nat 32) (spaces k)
  end.

(** [Array.prototype.join]. *)
Fixpoint join (sep : string) (parts : list string) : string :=
  match parts with
  | [] => EmptyString
  | [x] => x
  | x :: rest => x ++ sep ++ join sep rest
  end.

(** [String(n)] for an integer. *)
Definition show_Z (n : Z) : string := NilZero.string_of_int (Z.to_int n).

(** A JavaScript string is falsy exactly when it is empty. *)
Definition truthy (s : string) : bool :=
  match s with
  | EmptyString => false
  | String _ _ => true
  end.

(** [String.prototype.split] on a one-character separator: the pieces
    between the occurrences of [sep], at least one piece. *)
Fixpoint split_on (sep : ascii) (s : string) : list string :=
  match s with
  | EmptyString => [EmptyString]
  | String c rest =>
      if Ascii.eqb c sep then EmptyString :: split_on sep rest
      else match split_on sep rest with
           | [] => [String c EmptyString]
           | piece :: pieces => String c piece :: pieces
           end
  end.

Fixpoint contains_char (c : ascii) (s : string) : bool :=
  match s with
  | EmptyString => false
  | String d rest => Ascii.eqb d c || contains_char c rest
  end.

(** ASCII lower-casing, the part of [toLowerCase] / SQL [ILIKE] folding
    that applies to the Latin letters. *)
Definition lower_ascii (c : ascii) : ascii :=
  let n := nat_of_ascii c in
  if (Nat.leb 65 n && Nat.leb n 90)%bool then ascii_of_nat (n + 32) else c.

Fixpoint lower (s : string) : string :=
  match s with
  | EmptyString => EmptyString
  | String c rest => String (lower_ascii c) (lower rest)
  end.

Fixpoint is_prefix (p s : string) : bool :=
  match p, s with
  | EmptyString, _ => true
  | String _ _, EmptyString => false
  | String a p', String b s' => Ascii.eqb a b && is_prefix p' s'
  end.

Fixpoint is_substring (needle hay : string) : bool :=
  is_prefix needle hay ||
  match hay with
  | EmptyString => false
  | String _ rest => is_substring needle rest
  end.

End Text.

(** ** Numbers *)

Module Num.

(** [Math.ceil(n / d)] for integers [n] and a positive integer [d]. *)
Definition ceil_div (n d : Z) : Z := - ((- n) / d).

(** Digits of a non-negative integer in groups of three, separated by
    commas, as the en-KE locale prints them. *)
Fixpoint group3 (fuel : nat) (n : Z) : string :=
  match fuel with
  | O => Text.show_Z n
  | S k =>
      if n <? 1000 then Text.show_Z n
      else
        let r := n mod 1000 in
        group3 k (n / 1000) ++ "," ++
        (if r <? 10 then "00" else if r <? 100 then "0" else EmptyString) ++
        Text.show_Z r
  end.

Definition two_digits (n : Z) : string :=
  (if n <? 10 then "0" else EmptyString) ++ Text.show_Z n.

(** [Intl.NumberFormat('en-KE', {minimumFractionDigits: 2,
    maximumFractionDigits: 2}).format] of an amount given in hundredths. *)
Definition format_hundredths (amount : Z) : string :=
  let a := Z.abs amount in
  (if amount <? 0 then "-" else EmptyString) ++
  group3 (Z.to_nat (Z.log2 (a / 100 + 1))) (a / 100) ++ "." ++ two_digits (a mod 100).

(** [String(x)] of an amount given in hundredths: the shortest decimal,
    without trailing zeros. *)
Definition show_hundredths (amount : Z) : string :=
  let a := Z.abs amount in
  let f := a mod 100 in
  (if amount <? 0 then "-" else EmptyString) ++
  Text.show_Z (a / 100) ++
  (if f =? 0 then EmptyString
   else if f mod 10 =? 0 then "." ++ Text.show_Z (f / 10)
   else "." ++ two_digits f).

End Num.

(** ** JavaScript numbers *)

Module Double.

(** A Number is a binary64 value: 53 bits of precision, infinities at
    the exponent 1024. *)
Definition prec : Z := 53.
Definition emax : Z := 1024.

Definition t : Type := spec_float.

Definition zero : t := S754_zero false.

(** [x + y] and [x * y], rounded to the nearest double, ties to even. *)
Definition add (x y : t) : t := SFadd prec emax x y.
Definition mul (x y : t) : t := SFmul prec emax x y.

(** [x <= y]; false when either is NaN. *)
Definition leb (x y : t) : bool := SFleb x y.

(** The Number that an integer literal denotes: the nearest double. *)
Definition of_Z (n : Z) : t := binary_normalize prec emax n 0 false.

(** The Number that the JSON of a price denotes: the double nearest to
    the amount of [h] hundredths. *)
Definition of_hundredths (h : Z) : t :=
  match h with
  | Z0 => S754_zero false
  | Zpos m => SFdiv prec emax (S754_finite false m 0) (S754_finite false 100 0)
  | Zneg m => SFdiv prec emax (S754_finite true m 0) (S754_finite false 100 0)
  end.

(** The exponent of the smallest positive double. *)
Definition emin : Z := -1074.

(** A Number whose exponent, if it is finite and not zero, is not below
    that of the smallest double; every result of an operation is. *)
Definition in_range (x : t) : Prop :=
  match x with
  | S754_finite _ _ e => emin <= e
  | _ => True
  end.

(** A Number that is not NaN and has no minus sign: zero, a positive
    double, or the positive infinity. *)
Definition unsigned (x : t) : Prop :=
  match x with
  | S754_zero s | S754_infinity s | S754_finite s _ _ => s = false
  | S754_nan => False
  end.

(** What a rounding gives, by the sign it is given: a zero, an infinity
    or a finite double in range, with that sign. *)
Definition rounded_with (s : bool) (x : t) : Prop :=
  match x with
  | S754_zero s' | S754_infinity s' => s' = s
  | S754_finite s' _ e => s' = s /\ emin <= e
  | S754_nan => False
  end.

(** [Number.isFinite]. *)
Definition isFinite (x : t) : bool :=
  match x with
  | S754_zero _ | S754_finite _ _ _ => true
  | S754_infinity _ | S754_nan => false
  end.

(** The magnitude [m * 2^e] in hundredths, rounded to the nearest
    integer, a half rounded up. *)
Definition hundredths_half_up (m : positive) (e : Z) : Z :=
  match e with
  | Zneg k => (2 * (Zpos m * 100) + 2 ^ Zpos k) / 2 ^ (Zpos k + 1)
  | _ => Zpos m * 100 * 2 ^ e
  end.

Definition minus_sign (s : bool) : string := if s then "-" else EmptyString.

(** The infinity sign, as its three bytes. *)
Definition infinity_sign : string :=
  String (ascii_of_nat 226) (String (ascii_of_nat 136)
    (String (ascii_of_nat 158) EmptyString)).

(** [Intl.NumberFormat('en-KE', {minimumFractionDigits: 2,
    maximumFractionDigits: 2}).format] of a Number: the exact value of the
    double rounded to two decimals, the digits before the point in groups
    of three. *)
Definition format2 (x : t) : string :=
  match x with
  | S754_nan => "NaN"
  | S754_infinity s => minus_sign s ++ infinity_sign
  | S754_zero s => minus_sign s ++ Num.format_hundredths 0
  | S754_finite s m e => minus_sign s ++ Num.format_hundredths (hundredths_half_up m e)
  end.

End Double.

(** ** Data model *)

(** The three derived stock statuses. *)
Inductive status : Type := OutOfStock | LowStock | InStock.

Definition status_class (s : status) : string :=
  match s with
  | OutOfStock => "out-of-stock"
  | LowStock => "low-stock"
  | InStock => "in-stock"
  end.

Definition status_text (s : status) : string :=
  match s with
  | OutOfStock => "Out of Stock"
  | LowStock => "Low Stock"
  | InStock => "In Stock"
  end.

(** The badge markup that the products page prints for a status. *)
Definition status_badge (s : status) : string :=
  "<span class=" ++ Text.dq ++ "status " ++ status_class s ++ Text.dq ++ ">" ++
  status_text s ++ "</span>".

(** The status table of the data model:
    0 is out of stock, 1..9 low stock, 10 and above in stock. *)
Definition status_table (stock_quantity : Z) : status :=
  if stock_quantity =? 0 then OutOfStock
  else if stock_quantity <=? 9 then LowStock
  else InStock.

(** A product as the JSON of the API carries it. *)
Record product : Type := Product {
  id : Z;
  sku : string;
  name : string;
  category : string;
  price : Z;
  stock_quantity : Z;
  description : option string
}.

(** ** URLSearchParams *)

Module URLSearchParams.

(** The object is its list of name/value pairs, in insertion order. *)
Definition t : Type := list (string * string).

(** [params.append(name, value)]. *)
Definition append (name value : string) (params : t) : t :=
  (params ++ [(name, value)])%list.

(** [params.delete(name)]: every pair with that name goes. *)
Definition delete (name : string) (params : t) : t :=
  filter (fun kv => negb (String.eqb (fst kv) name)) params.

Definition hex_digit (n : nat) : ascii :=
  if Nat.ltb n 10 then ascii_of_nat (48 + n) else ascii_of_nat (55 + n).

(** The application/x-www-form-urlencoded byte serializer: letters,
    digits and [* - . _] stay, a space becomes [+], every other byte is
    percent-encoded. *)
Definition encode_byte (c : ascii) : string :=
  let n := nat_of_ascii c in
  if ((Nat.leb 48 n && Nat.leb n 57) || (Nat.leb 65 n && Nat.leb n 90) ||
      (Nat.leb 97 n && Nat.leb n 122) ||
      Nat.eqb n 42 || Nat.eqb n 45 || Nat.eqb n 46 || Nat.eqb n 95)%bool
  then String c EmptyString
  else if Nat.eqb n 32 then "+"
  else String (ascii_of_nat 37)
         (String (hex_digit (Nat.div n 16))
            (String (hex_digit (Nat.modulo n 16)) EmptyString)).

Fixpoint encode (s : string) : string :=
  match s with
  | EmptyString => EmptyString
  | String c rest => encode_byte c ++ encode rest
  end.

(** [params.toString()]. *)
Definition toString (params : t) : string :=
  Text.join "&" (map (fun kv => encode (fst kv) ++ "=" ++ encode (snd kv)) params).

(** The loop
    [for (const [key, value] of params.entries()) if (!value) params.delete(key)].
    The iterator of [entries()] is live: it holds an index into the list
    of the object and reads the pair at that index on every step, so a
    deletion that shortens the list moves later pairs under the index.
    [fuel] bounds the number of steps. *)
Fixpoint delete_empty_loop (fuel index : nat) (params : t) : t :=
  match fuel with
  | O => params
  | S fuel' =>
      match nth_error params index with
      | None => params
      | Some (key, value) =>
          delete_empty_loop fuel' (S index)
            (if negb (Text.truthy value) then delete key params else params)
      end
  end.

(** The index grows with every step and the list never does, so as many
    steps as the list is long run the loop to its end. *)
Definition delete_empty (params : t) : t :=
  delete_empty_loop (List.length params) 0 params.

End URLSearchParams.

(** ** The products page script *)

Module ProductsPage.

Definition API_BASE : string := "/api".

(** The module-level [currentFilters] object; its keys are created in
    this order and only ever reassigned. *)
Record filters : Type := Filters {
  search : string;
  category : string;
  status : string
}.

Definition initialFilters : filters := Filters EmptyString EmptyString EmptyString.

Definition getStatusBadge (stockQuantity : Z) : string :=
  if stockQuantity =? 0 then
    "<span class=" ++ Text.dq ++ "status out-of-stock" ++ Text.dq ++ ">Out of Stock</span>"
  else if stockQuantity <=? 10 then
    "<span class=" ++ Text.dq ++ "status low-stock" ++ Text.dq ++ ">Low Stock</span>"
  else
    "<span class=" ++ Text.dq ++ "status in-stock" ++ Text.dq ++ ">In Stock</span>".

(** [new URLSearchParams({page: page, per_page: 10, ...currentFilters})]. *)
Definition initialParams (page : Z) (currentFilters : filters) : URLSearchParams.t :=
  [ ("page", Text.show_Z page);
    ("per_page", Text.show_Z 10);
    ("search", search currentFilters);
    ("category", category currentFilters);
    ("status", status currentFilters) ].

(** The parameters of the request of [loadProducts(page)], after the loop
    that is to remove the empty filters. *)
Definition loadProducts_params (page : Z) (currentFilters : filters) : URLSearchParams.t :=
  URLSearchParams.delete_empty (initialParams page currentFilters).

(** The URL that [loadProducts(page)] fetches. *)
Definition loadProducts_url (page : Z) (currentFilters : filters) : string :=
  API_BASE ++ "/products?" ++
  URLSearchParams.toString (loadProducts_params page currentFilters).

End ProductsPage.

(** ** The InventoryAPI client *)

Module InventoryAPI.

Definition baseURL : string := "/api".

(** The [filters] argument of [getProducts]; a key may be missing. *)
Record filters : Type := Filters {
  category : option string;
  search : option string;
  status : option string
}.

(** [getProducts()] without an argument: [filters = {}]. *)
Definition noFilters : filters := Filters None None None.

(** [if (filters.key) params.append(key, filters.key)]: a missing key
    and an empty string are both falsy. *)
Definition append_if (name : string) (v : option string)
    (params : URLSearchParams.t) : URLSearchParams.t :=
  match v with
  | None => params
  | Some s => if Text.truthy s then URLSearchParams.append name s params else params
  end.

Definition getProducts_params (f : filters) : URLSearchParams.t :=
  append_if "status" (status f)
    (append_if "search" (search f)
       (append_if "category" (category f) [])).

(** The URL that [getProducts(filters)] requests. *)
Definition getProducts_url (f : filters) : string :=
  let params := getProducts_params f in
  let query :=
    if Text.truthy (URLSearchParams.toString params)
    then "?" ++ URLSearchParams.toString params
    else EmptyString in
  baseURL ++ "/products" ++ query.

End InventoryAPI.

(** ** Arrays *)

Module JsArray.

(** [Array.prototype.slice(start, end)]: a negative index counts from
    the end, every index is clamped to the array, and an empty range
    gives the empty array. *)
Definition slice {A : Type} (l : list A) (start stop : Z) : list A :=
  let len := Z.of_nat (List.length l) in
  let k := if start <? 0 then Z.max (len + start) 0 else Z.min start len in
  let final := if stop <? 0 then Z.max (len + stop) 0 else Z.min stop len in
  firstn (Z.to_nat (Z.max (final - k) 0)) (skipn (Z.to_nat k) l).

End JsArray.

(** ** static/js/products.js *)

Module Products.

Definition productsPerPage : Z := 10.

Definition getStatusClass (stock : Z) : string :=
  if stock =? 0 then "out-of-stock"
  else if stock <? 10 then "low-stock"
  else "in-stock".

Definition getStatusText (stock : Z) : string :=
  if stock =? 0 then "Out of Stock"
  else if stock <? 10 then "Low Stock"
  else "In Stock".

Definition formatPrice (price : Z) : string := Num.format_hundredths price.

(** What a click on a paging button runs: the closures
    [() => changePage(currentPage - 1)] and [() => changePage(currentPage + 1)],
    which read [currentPage] when they run. *)
Inductive handler : Type := GoToPrevious | GoToNext.

Record button : Type := Button {
  disabled : bool;
  onclick : option handler
}.

(** The nodes of the page that the script selects. *)
Record document : Type := Document {
  tbody : option string;      (* innerHTML of [.products-table tbody] *)
  pageInfo : option string;   (* textContent of [.page-info] *)
  prevBtn : option button;    (* [.page-btn:first-child] *)
  nextBtn : option button     (* [.page-btn:last-child] *)
}.

(** The module-level variables and the page. *)
Record state : Type := State {
  currentProducts : list product;
  currentPage : Z;
  doc : document
}.

Definition line (indent : nat) (text : string) : string :=
  Text.spaces indent ++ text ++ Text.nl.

(** The template literal of one table row. *)
Definition row (p : product) : string :=
  Text.nl ++
  line 8 ("<tr data-product-id=" ++ Text.dq ++ Text.show_Z (id p) ++ Text.dq ++ ">") ++
  line 12 ("<td>" ++ sku p ++ "</td>") ++
  line 12 ("<td>" ++ name p ++ "</td>") ++
  line 12 ("<td>" ++ category p ++ "</td>") ++
  line 12 ("<td>KSh " ++ formatPrice (price p) ++ "</td>") ++
  line 12 ("<td>" ++ Text.show_Z (stock_quantity p) ++ "</td>") ++
  line 12 ("<td><span class=" ++ Text.dq ++ "status " ++
           getStatusClass (stock_quantity p) ++ Text.dq ++ ">" ++
           getStatusText (stock_quantity p) ++ "</span></td>") ++
  line 12 "<td>" ++
  line 16 ("<button class=" ++ Text.dq ++ "btn-action edit" ++ Text.dq ++
           " onclick=" ++ Text.dq ++ "editProduct(" ++ Text.show_Z (id p) ++ ")" ++
           Text.dq ++ ">Edit</button>") ++
  line 16 ("<button class=" ++ Text.dq ++ "btn-action delete" ++ Text.dq ++
           " onclick=" ++ Text.dq ++ "deleteProduct(" ++ Text.show_Z (id p) ++ ")" ++
           Text.dq ++ ">Delete</button>") ++
  line 12 "</td>" ++
  line 8 "</tr>" ++
  Text.spaces 4.

(** The slice of [renderProductsTable] for the page [page]. *)
Definition pageProducts (page : Z) (products : list product) : list product :=
  let startIndex := (page - 1) * productsPerPage in
  let endIndex := startIndex + productsPerPage in
  JsArray.slice products startIndex endIndex.

Definition renderProductsTable (products : list product) (st : state) : state :=
  match tbody (doc st) with
  | None => st
  | Some _ =>
      let html := Text.join EmptyString (map row (pageProducts (currentPage st) products)) in
      State (currentProducts st) (currentPage st)
            (Document (Some html) (pageInfo (doc st)) (prevBtn (doc st)) (nextBtn (doc st)))
  end.

Definition updatePagination (totalProducts : Z) (st : state) : state :=
  let totalPages := Num.ceil_div totalProducts productsPerPage in
  let d := doc st in
  let info :=
    match pageInfo d with
    | None => None
    | Some _ =>
        Some ("Page " ++ Text.show_Z (currentPage st) ++ " of " ++ Text.show_Z totalPages)
    end in
  let prev :=
    match prevBtn d with
    | None => None
    | Some _ => Some (Button (currentPage st =? 1) (Some GoToPrevious))
    end in
  let next :=
    match nextBtn d with
    | None => None
    | Some _ => Some (Button (currentPage st =? totalPages) (Some GoToNext))
    end in
  State (currentProducts st) (currentPage st) (Document (tbody d) info prev next).

(** [loadProducts] once the request has answered with [products]. *)
Definition loadProducts (products : list product) (st : state) : state :=
  let st1 := State products (currentPage st) (doc st) in
  updatePagination (Z.of_nat (List.length products)) (renderProductsTable products st1).

Definition changePage (page : Z) (st : state) : state :=
  let st1 := State (currentProducts st) page (doc st) in
  updatePagination (Z.of_nat (List.length (currentProducts st1)))
    (renderProductsTable (currentProducts st1) st1).

(** A click on a button: a disabled button does nothing. *)
Definition click (b : button) (st : state) : state :=
  if disabled b then st
  else match onclick b with
       | None => st
       | Some GoToPrevious => changePage (currentPage st - 1) st
       | Some GoToNext => changePage (currentPage st + 1) st
       end.

(** The page as the script finds it: page 1, nothing loaded, all four
    nodes present and untouched. *)
Definition initialDocument : document :=
  Document (Some EmptyString) (Some EmptyString)
           (Some (Button false None)) (Some (Button false None)).

Definition initialState : state := State [] 1 initialDocument.

(** Whether a paging control can be used. *)
Definition enabled (b : option button) : bool :=
  match b with
  | None => false
  | Some x => negb (disabled x)
  end.

End Products.

(** ** The reports script of static/js/dashboard.js *)

Module Reports.

Definition getStatusText (stock : Z) : string :=
  if stock =? 0 then "Out of Stock"
  else if stock <? 10 then "Low Stock"
  else "In Stock".

Definition formatPrice (price : Double.t) : string := Double.format2 price.

(** The [reduce] of [loadSummaryStats]: [product.price] and
    [product.stock_quantity] are the Numbers of the JSON, and the product
    and the sum are rounded at every step. *)
Definition totalValue (products : list product) : Double.t :=
  fold_left
    (fun sum product =>
       Double.add sum
         (Double.mul (Double.of_hundredths (price product))
                     (Double.of_Z (stock_quantity product))))
    products Double.zero.

(** The text of the total-value summary card. *)
Definition totalValueText (products : list product) : string :=
  "KSh " ++ formatPrice (totalValue products).

Definition headers : list string :=
  ["SKU"; "Name"; "Category"; "Price (KSh)"; "Stock Quantity"; "Status"].

(** The cells of the row of one product, before they are joined. *)
Definition csvCells (product : product) : list string :=
  [ sku product;
    Text.dq ++ name product ++ Text.dq;
    category product;
    Num.show_hundredths (price product);
    Text.show_Z (stock_quantity product);
    getStatusText (stock_quantity product) ].

Definition csvRow (product : product) : string :=
  Text.join "," (csvCells product).

(** [csvContent] of [exportData]. *)
Definition csvContent (products : list product) : string :=
  Text.join Text.nl (Text.join "," headers :: map csvRow products).

End Reports.

(** ** The listing operation of the server *)

Module Backend.

(** Modelled from the spec: the filters of a listing request to the server
    (backend/app.py is not among the sources); an empty string is an absent
    filter. *)
Record filters : Type := Filters {
  by_search : string;
  by_category : string;
  by_status : string
}.

(** Modelled from the spec: the search predicate of the listing operation
    of the server ([GET /api/products], backend/app.py, which is not among
    the sources).  The text matches when it occurs, letter case ignored, as
    a substring of the name, of the sku or of the description. *)
Definition matches_search (text : string) (p : product) : bool :=
  Text.is_substring (Text.lower text) (Text.lower (name p)) ||
  Text.is_substring (Text.lower text) (Text.lower (sku p)) ||
  match description p with
  | None => false
  | Some d => Text.is_substring (Text.lower text) (Text.lower d)
  end.

(** Modelled from the spec: the category predicate of the listing operation
    of the server (backend/app.py is not among the sources): exact,
    case-sensitive equality. *)
Definition matches_category (wanted : string) (p : product) : bool :=
  String.eqb (category p) wanted.

(** Modelled from the spec: the status predicate of the listing operation
    of the server (backend/app.py is not among the sources): the filter value
    is compared with the name of the status that the status table derives
    from the stock quantity. *)
Definition matches_status (wanted : string) (p : product) : bool :=
  String.eqb (status_class (status_table (stock_quantity p))) wanted.

(** Modelled from the spec: one filtering step of the listing operation of
    the server (backend/app.py is not among the sources): a supplied filter
    narrows the result, an absent one leaves it as it is. *)
Definition narrow (value : string) (pred : string -> product -> bool)
    (rows : list product) : list product :=
  if Text.truthy value then filter (pred value) rows else rows.

(** Modelled from the spec: the listing operation of the server
    ([GET /api/products] of backend/app.py, which is not among the sources),
    without its paging: the products of the store, in the order of the store,
    narrowed by each supplied filter in turn. *)
Definition list_products (f : filters) (store : list product) : list product :=
  narrow (by_status f) matches_status
    (narrow (by_category f) matches_category
       (narrow (by_search f) matches_search store)).

(** The conjunction of the supplied predicates, as one test. *)
Definition satisfies (f : filters) (p : product) : bool :=
  (negb (Text.truthy (by_search f)) || matches_search (by_search f) p) &&
  (negb (Text.truthy (by_category f)) || matches_category (by_category f) p) &&
  (negb (Text.truthy (by_status f)) || matches_status (by_status f) p).

(** [needle] occurs in [hay], letter case ignored. *)
Definition occurs_in (needle hay : string) : Prop :=
  exists before after, Text.lower hay = before ++ Text.lower needle ++ after.

End Backend.

(** ** Observations used in the statements *)

Module Observe.

(** The page numbers [1 .. totalPages]. *)
Definition pageNumbers (totalPages : Z) : list Z :=
  map Z.of_nat (seq 1 (Z.to_nat totalPages)).

(** The number of pages of a list, as [updatePagination] computes it. *)
Definition totalPages (products : list product) : Z :=
  Num.ceil_div (Z.of_nat (List.length products)) Products.productsPerPage.

(** The state of the products page with [products] loaded, turned to
    the page [page]. *)
Definition onPage (page : Z) (products : list product) : Products.state :=
  Products.State products page Products.initialDocument.

(** The markup that [renderProductsTable] leaves in the table body. *)
Definition innerHTML (st : Products.state) : string :=
  match Products.tbody (Products.doc st) with
  | None => EmptyString
  | Some html => html
  end.

(** A click on the next control of the page. *)
Definition clickNext (st : Products.state) : Products.state :=
  match Products.nextBtn (Products.doc st) with
  | None => st
  | Some b => Products.click b st
  end.


(** The value of the stock of one product as the scripts compute it:
    the double nearest to the price times the double of the stock quantity,
    rounded to the nearest double. *)
Definition rounded_value (p : product) : Double.t :=
  Double.mul (Double.of_hundredths (price p)) (Double.of_Z (stock_quantity p)).




End Observe.

(** ** A seeded store *)

Module Sample.

(** Three products: SKU A1 with no stock, A2 with a stock of 5 and A3
    with a stock of 50. *)
Definition a1 : product :=
  Product 1 "A1" "Laptop, 15 inch" "Electronics" 8500000 0 (Some "Office laptop").
Definition a2 : product :=
  Product 2 "A2" "Stapler" "Supplies" 45050 5 None.
Definition a3 : product :=
  Product 3 "A3" "USB cable" "Electronics" 25000 50 (Some "1 m cable").


Definition store : list product := [a1; a2; a3].

End Sample.

(** ** The loop over the parameters, as a function of the list *)

Module ParamsSpec.

(** What the deleting loop leaves of a list of pairs with distinct names:
    a pair with a value stays; a pair with an empty value goes, and the
    pair after it is stepped over and stays whatever its value. *)
Fixpoint sweep (params : URLSearchParams.t) : URLSearchParams.t :=
  match params with
  | [] => []
  | (key, value) :: rest =>
      if Text.truthy value then (key, value) :: sweep rest
      else match rest with
           | [] => []
           | next :: rest' => next :: sweep rest'
           end
  end.

(** The names of the pairs are pairwise distinct. *)
Definition distinct_names (params : URLSearchParams.t) : Prop :=
  NoDup (map fst params).

(** A filter of [getProducts] that is there and not empty. *)
Definition supplied (v : option string) : bool :=
  match v with
  | Some (String _ _) => true
  | Some EmptyString | None => false
  end.

(** The filters of [getProducts] that are supplied, with their names, in
    the order in which the function looks at them. *)
Definition supplied_filters (f : InventoryAPI.filters) : list (string * string) :=
  flat_map (fun nv => match snd nv with
                      | Some (String c s) => [(fst nv, String c s)]
                      | Some EmptyString | None => []
                      end)
           [("category", InventoryAPI.category f);
            ("search", InventoryAPI.search f);
            ("status", InventoryAPI.status f)].

Definition ampersand : ascii := ascii_of_nat 38.
Definition equals_sign : ascii := ascii_of_nat 61.

(** The text of one pair in the query string. *)
Definition pair_text (kv : string * string) : string :=
  URLSearchParams.encode (fst kv) ++ "=" ++ URLSearchParams.encode (snd kv).

End ParamsSpec.

(** ** Reading a query string *)

Module FormDecode.

Definition hex_value (c : ascii) : option nat :=
  let n := nat_of_ascii c in
  if (Nat.leb 48 n && Nat.leb n 57)%bool then Some (n - 48)%nat
  else if (Nat.leb 65 n && Nat.leb n 70)%bool then Some (n - 55)%nat
  else if (Nat.leb 97 n && Nat.leb n 102)%bool then Some (n - 87)%nat
  else None.

(** The decoding that the application/x-www-form-urlencoded parser of the
    URL standard applies to a name or a value, the reader's side of
    [URLSearchParams.encode]: a plus sign is a space, a percent sign with
    two hexadecimal digits is the byte they write, everything else stands
    for itself. *)
Fixpoint decode (s : string) : string :=
  match s with
  | EmptyString => EmptyString
  | String c rest =>
      if Ascii.eqb c "+"%char then String " "%char (decode rest)
      else if Ascii.eqb c "%"%char then
        match rest with
        | String h (String l rest') =>
            match hex_value h, hex_value l with
            | Some a, Some b => String (ascii_of_nat (16 * a + b)) (decode rest')
            | _, _ => String c (decode rest)
            end
        | _ => String c (decode rest)
        end
      else String c (decode rest)
  end.

End FormDecode.

(** ** Paging by clicks *)

Module Paging.

(** A click on the previous control of the page. *)
Definition clickPrev (st : Products.state) : Products.state :=
  match Products.prevBtn (Products.doc st) with
  | None => st
  | Some b => Products.click b st
  end.

(** The clicks of a user on the two paging controls, one after the other. *)
Fixpoint clicks (hs : list Products.handler) (st : Products.state) : Products.state :=
  match hs with
  | [] => st
  | Products.GoToPrevious :: rest => clicks rest (clickPrev st)
  | Products.GoToNext :: rest => clicks rest (Observe.clickNext st)
  end.

(** The page as [changePage(page)] leaves it when [products] is loaded. *)
Definition shown (products : list product) (page : Z) : Products.state :=
  Products.changePage page (Observe.onPage page products).

(** All four nodes that the script selects are in the page. *)
Definition complete (d : Products.document) : Prop :=
  Products.tbody d <> None /\ Products.pageInfo d <> None /\
  Products.prevBtn d <> None /\ Products.nextBtn d <> None.

End Paging.

(** ** Counting separators *)

Module Count.

Fixpoint count_char (c : ascii) (s : string) : nat :=
  match s with
  | EmptyString => O
  | String d rest => (if Ascii.eqb d c then 1 else 0) + count_char c rest
  end.

(** The occurrences of [c] in the three text fields of a product. *)
Definition in_text_fields (c : ascii) (p : product) : nat :=
  count_char c (sku p) + count_char c (name p) + count_char c (category p).

End Count.

(** ** The dashboard script of static/js/dashboard.js *)

Module Dashboard.

(** [formatTimeAgo], as a function of [now - date], the age of the date
    in milliseconds. *)
Definition formatTimeAgo (age : Z) : string :=
  let diffInSeconds := age / 1000 in
  if diffInSeconds <? 60 then "Just now"
  else if diffInSeconds <? 3600 then Text.show_Z (diffInSeconds / 60) ++ " minutes ago"
  else if diffInSeconds <? 86400 then Text.show_Z (diffInSeconds / 3600) ++ " hours ago"
  else Text.show_Z (diffInSeconds / 86400) ++ " days ago".

End Dashboard.

(** ** debounce of static/js/products.js *)

Module Debounce.

Section WithArgs.

Variable Args : Type.

(** The timers of the page and one debounced function:
    [timeout] is the variable of the closure, [timers] the timers that are
    set and have not fired, each with the arguments its [later] holds,
    [next_id] the id that [setTimeout] gives next, and [invoked] the calls of
    [func] so far, the oldest first. *)
Record env : Type := Env {
  timeout : option nat;
  timers : list (nat * Args);
  next_id : nat;
  invoked : list Args
}.

(** [clearTimeout(id)]; an id that is not set, and [undefined], change nothing. *)
Definition clearTimeout (id : option nat) (ts : list (nat * Args)) : list (nat * Args) :=
  match id with
  | None => ts
  | Some i => filter (fun t => negb (Nat.eqb (fst t) i)) ts
  end.

(** A call of the debounced function:
    [clearTimeout(timeout); timeout = setTimeout(later, wait)]. *)
Definition call (args : Args) (e : env) : env :=
  Env (Some (next_id e))
      (clearTimeout (timeout e) (timers e) ++ [(next_id e, args)])%list
      (S (next_id e))
      (invoked e).

Fixpoint find_timer (id : nat) (ts : list (nat * Args)) : option Args :=
  match ts with
  | [] => None
  | (i, a) :: rest => if Nat.eqb i id then Some a else find_timer id rest
  end.

(** The timer [id] fires, if it is set: it leaves the timers and runs
    [later], that is [clearTimeout(timeout); func(...args)]. *)
Definition fire (id : nat) (e : env) : env :=
  match find_timer id (timers e) with
  | None => e
  | Some args =>
      let remaining := filter (fun t => negb (Nat.eqb (fst t) id)) (timers e) in
      Env (timeout e) (clearTimeout (timeout e) remaining) (next_id e)
          (invoked e ++ [args])%list
  end.

Inductive event : Type :=
| Call (args : Args)
| Fire (id : nat).

Definition step (e : env) (ev : event) : env :=
  match ev with
  | Call args => call args e
  | Fire id => fire id e
  end.

Definition run (evs : list event) (e : env) : env := fold_left step evs e.

(** Before the first call: [let timeout;], no timer of this function set. *)
Definition start (first_id : nat) : env := Env None [] first_id [].

(** At most one timer of the debounced function is set, and it is the
    one that the variable [timeout] names. *)
Definition one_pending (e : env) : Prop :=
  timers e = [] \/
  exists id args, timers e = [(id, args)] /\ timeout e = Some id.

End WithArgs.

Arguments Env {Args}.
Arguments timeout {Args}.
Arguments timers {Args}.
Arguments next_id {Args}.
Arguments invoked {Args}.
Arguments call {Args}.
Arguments fire {Args}.
Arguments Call {Args}.
Arguments Fire {Args}.
Arguments step {Args}.
Arguments run {Args}.
Arguments start {Args}.
Arguments one_pending {Args}.

End Debounce.

(** ** The request options of the InventoryAPI client *)

Module Fetch.

(** An object literal: its own properties in the order of their creation. *)
Definition object (V : Type) : Type := list (string * V).

Fixpoint lookup {V : Type} (key : string) (o : object V) : option V :=
  match o with
  | [] => None
  | (k, v) :: rest => if String.eqb k key then Some v else lookup key rest
  end.

(** Writing a property: an existing one keeps its place, a new one goes
    to the end. *)
Fixpoint set {V : Type} (key : string) (v : V) (o : object V) : object V :=
  match o with
  | [] => [(key, v)]
  | (k, w) :: rest =>
      if String.eqb k key then (k, v) :: rest else (k, w) :: set key v rest
  end.

(** [{...base, ...more}]: the properties of [more] are written over [base]. *)
Definition spread {V : Type} (base more : object V) : object V :=
  fold_left (fun acc kv => set (fst kv) (snd kv) acc) more base.

(** The values of the options of a request: a text, a headers object, or
    [undefined]. *)
Inductive value : Type :=
| Undefined
| Str (s : string)
| Headers (h : object string).

Fixpoint chars_from (index : nat) (s : string) : object string :=
  match s with
  | EmptyString => []
  | String c rest =>
      (Text.show_Z (Z.of_nat index), String c EmptyString) :: chars_from (S index) rest
  end.

(** The properties that [...v] spreads: those of an object, the indexed
    characters of a text, none of [undefined] or of a missing property. *)
Definition own_properties (v : option value) : object string :=
  match v with
  | Some (Headers h) => h
  | Some (Str s) => chars_from 0 s
  | Some Undefined | None => []
  end.

(** The [config] of [request(endpoint, options)]:
    [{headers: {'Content-Type': 'application/json', ...options.headers}, ...options}]. *)
Definition config (options : object value) : object value :=
  spread
    [("headers",
      Headers (spread [("Content-Type", "application/json")]
                      (own_properties (lookup "headers" options))))]
    options.

(** The options of [createProduct], [updateProduct] and [deleteProduct]. *)
Definition createProduct_options (body : string) : object value :=
  [("method", Str "POST"); ("body", Str body)].
Definition updateProduct_options (body : string) : object value :=
  [("method", Str "PUT"); ("body", Str body)].
Definition deleteProduct_options : object value :=
  [("method", Str "DELETE")].

End Fetch.

(** * Properties *)

(** ** Status classification *)

Section StatusCopies.

Variable stock : Z.
Hypothesis stock_nonneg : 0 <= stock.

Lemma Products_getStatusClass_table :
  Products.getStatusClass stock = status_class (status_table stock).
Proof.
  unfold Products.getStatusClass, status_table.
  destruct (stock =? 0) eqn:E0; [reflexivity|].
  destruct (stock <? 10) eqn:E1, (stock <=? 9) eqn:E2; try reflexivity; lia.
Qed.

Lemma Products_getStatusText_table :
  Products.getStatusText stock = status_text (status_table stock).
Proof.
  unfold Products.getStatusText, status_table.
  destruct (stock =? 0) eqn:E0; [reflexivity|].
  destruct (stock <? 10) eqn:E1, (stock <=? 9) eqn:E2; try reflexivity; lia.
Qed.

Lemma Reports_getStatusText_table :
  Reports.getStatusText stock = status_text (status_table stock).
Proof.
  unfold Reports.getStatusText, status_table.
  destruct (stock =? 0) eqn:E0; [reflexivity|].
  destruct (stock <? 10) eqn:E1, (stock <=? 9) eqn:E2; try reflexivity; lia.
Qed.

(** Away from 10 the badge of the products page follows the table too. *)
Lemma getStatusBadge_table_except_10 :
  stock <> 10 ->
  ProductsPage.getStatusBadge stock = status_badge (status_table stock).
Proof.
  intros Hne. unfold ProductsPage.getStatusBadge, status_table.
  destruct (stock =? 0) eqn:E0; [reflexivity|].
  destruct (stock <=? 10) eqn:E1, (stock <=? 9) eqn:E2; try reflexivity; lia.
Qed.

End StatusCopies.

Lemma status_badge_injective :
  forall a b, status_badge a = status_badge b -> a = b.
Proof.
  intros [] [] H; try reflexivity; vm_compute in H; discriminate H.
Qed.

(** C1.  The data model puts a stock of 10 in stock, and so do
    getStatusClass and getStatusText of static/js/products.js; getStatusBadge
    of the products page script tests [stockQuantity <= 10] and prints the
    low-stock badge for 10.  At 0 and at 9 it prints the badges the table
    asks for. *)
Theorem getStatusBadge_boundary_10 :
  status_table 10 = InStock /\
  Products.getStatusClass 10 = status_class InStock /\
  ProductsPage.getStatusBadge 10 = status_badge LowStock /\
  ProductsPage.getStatusBadge 10 <> status_badge (status_table 10) /\
  ProductsPage.getStatusBadge 0 = status_badge OutOfStock /\
  ProductsPage.getStatusBadge 9 = status_badge LowStock.
Proof.
  repeat split; try reflexivity.
  intro H. vm_compute in H. discriminate H.
Qed.

(** C7.  The copies of the classification do not agree at a stock of 10:
    the badge of the products page script says low stock where
    getStatusText and getStatusClass of static/js/products.js and
    getStatusText of the reports script say in stock. *)
Theorem status_copies_differ_at_10 :
  ProductsPage.getStatusBadge 10 = status_badge LowStock /\
  Products.getStatusText 10 = status_text InStock /\
  Products.getStatusClass 10 = status_class InStock /\
  Reports.getStatusText 10 = status_text InStock /\
  LowStock <> InStock.
Proof.
  repeat split; try reflexivity. discriminate.
Qed.

(** ** Request building *)

Lemma delete_length :
  forall name params,
    (List.length (URLSearchParams.delete name params) <= List.length params)%nat.
Proof.
  intros name0 params. unfold URLSearchParams.delete.
  induction params as [|kv rest IH]; simpl; [lia|].
  destruct (negb _); simpl; lia.
Qed.

(** Once the index has passed the end of the list, further steps change
    nothing: the loop has ended, and [delete_empty] gives it enough steps. *)
Lemma delete_empty_loop_enough :
  forall fuel index params extra,
    (List.length params <= index + fuel)%nat ->
    URLSearchParams.delete_empty_loop (fuel + extra) index params =
    URLSearchParams.delete_empty_loop fuel index params.
Proof.
  induction fuel as [|fuel IH]; intros index params extra Hlen.
  - assert (Hnone : nth_error params index = None)
      by (apply nth_error_None; lia).
    simpl. destruct extra; simpl; [reflexivity|]. now rewrite Hnone.
  - simpl. destruct (nth_error params index) as [[key value]|]; [|reflexivity].
    apply IH. destruct (negb (Text.truthy value)).
    + pose proof (delete_length key params). lia.
    + lia.
Qed.

Lemma delete_empty_enough :
  forall params extra,
    URLSearchParams.delete_empty_loop (List.length params + extra) 0 params =
    URLSearchParams.delete_empty params.
Proof.
  intros. unfold URLSearchParams.delete_empty.
  apply delete_empty_loop_enough. lia.
Qed.

(** The client of static/js/products.js appends a parameter only when its
    value is non-empty, so no parameter of its request is empty. *)
Lemma getProducts_params_nonempty :
  forall f key value,
    In (key, value) (InventoryAPI.getProducts_params f) -> value <> EmptyString.
Proof.
  intros f key value. unfold InventoryAPI.getProducts_params, InventoryAPI.append_if.
  destruct f as [c s t]; simpl.
  destruct c as [[|? ?]|], s as [[|? ?]|], t as [[|? ?]|]; simpl;
    intros H; repeat (destruct H as [H|H]; [inversion H; discriminate|]);
    contradiction.
Qed.

Lemma show_Z_truthy :
  forall n, Text.truthy (Text.show_Z n) = true.
Proof.
  intros n. unfold Text.show_Z. destruct (Z.to_int n) as [u|u]; [|reflexivity].
  destruct u; reflexivity.
Qed.

(** Whatever the page and the status filter, an empty category that
    follows an empty search is sent, and an empty status that follows an
    empty category is sent. *)
Lemma loadProducts_keeps_second_empty :
  forall page,
    (forall st,
       In ("category", EmptyString)
          (ProductsPage.loadProducts_params page
             (ProductsPage.Filters EmptyString EmptyString st))) /\
    (forall c s,
       In ("status", EmptyString)
          (ProductsPage.loadProducts_params page
             (ProductsPage.Filters (String c s) EmptyString EmptyString))).
Proof.
  intros page.
  unfold ProductsPage.loadProducts_params, ProductsPage.initialParams,
    URLSearchParams.delete_empty.
  pose proof (show_Z_truthy page) as Hpage.
  destruct (Text.show_Z page) as [|d digits]; [discriminate Hpage|].
  split.
  - intros [|c s]; cbn; tauto.
  - intros c s. cbn. tauto.
Qed.

(** C3.  With the three filters empty, as they are when the products page
    loads, the loop of loadProducts deletes [search] and [status] but steps
    over [category]: the request still carries [category=] with the empty
    value.  More steps do not change that. *)
Theorem loadProducts_sends_empty_category :
  ProductsPage.loadProducts_params 1 ProductsPage.initialFilters =
    [("page", "1"); ("per_page", "10"); ("category", EmptyString)] /\
  ProductsPage.loadProducts_url 1 ProductsPage.initialFilters =
    "/api/products?page=1&per_page=10&category=" /\
  (forall extra,
     URLSearchParams.delete_empty_loop
       (List.length (ProductsPage.initialParams 1 ProductsPage.initialFilters) + extra) 0
       (ProductsPage.initialParams 1 ProductsPage.initialFilters) =
     [("page", "1"); ("per_page", "10"); ("category", EmptyString)]).
Proof.
  split; [reflexivity|]. split; [reflexivity|].
  intros extra. rewrite delete_empty_enough. reflexivity.
Qed.

(** ** Paging controls *)

Lemma ceil_div_10_spec :
  forall n, 10 * (Num.ceil_div n 10 - 1) < n <= 10 * Num.ceil_div n 10.
Proof.
  intros n. unfold Num.ceil_div.
  pose proof (Z.div_mod (- n) 10 ltac:(lia)) as Hdm.
  pose proof (Z.mod_pos_bound (- n) 10 ltac:(lia)) as Hb.
  lia.
Qed.

(** The previous control is enabled exactly on the pages after the first. *)
Lemma updatePagination_prev :
  forall total st,
    1 <= Products.currentPage st ->
    Products.prevBtn (Products.doc st) <> None ->
    Products.enabled (Products.prevBtn (Products.doc (Products.updatePagination total st)))
    = (1 <? Products.currentPage st).
Proof.
  intros total st Hge Hbtn. unfold Products.updatePagination; simpl.
  destruct (Products.prevBtn (Products.doc st)); [|contradiction]. simpl.
  destruct (Products.currentPage st =? 1) eqn:E, (1 <? Products.currentPage st) eqn:F;
    simpl; try reflexivity; lia.
Qed.

(** On a page that exists the next control is enabled exactly before the
    last page. *)
Lemma updatePagination_next_in_range :
  forall total st,
    Products.currentPage st <= Num.ceil_div total Products.productsPerPage ->
    Products.nextBtn (Products.doc st) <> None ->
    Products.enabled (Products.nextBtn (Products.doc (Products.updatePagination total st)))
    = (Products.currentPage st <? Num.ceil_div total Products.productsPerPage).
Proof.
  intros total st Hle Hbtn. unfold Products.updatePagination; simpl.
  destruct (Products.nextBtn (Products.doc st)); [|contradiction]. simpl.
  destruct (Products.currentPage st =? _) eqn:E, (Products.currentPage st <? _) eqn:F;
    simpl; try reflexivity; lia.
Qed.

(** C4.  With no products the number of pages is 0 and the page is 1;
    updatePagination tests [currentPage === totalPages], so it leaves the
    next control enabled although 1 < 0 is false.  A click then turns to
    page 2 of 0.  The counts 10 and 11 on page 1 come out as claimed. *)
Theorem updatePagination_next_enabled_without_products :
  let st := Products.updatePagination 0 Products.initialState in
  Num.ceil_div 0 Products.productsPerPage = 0 /\
  Products.enabled (Products.nextBtn (Products.doc st)) = true /\
  (Products.currentPage Products.initialState <? Num.ceil_div 0 Products.productsPerPage) = false /\
  Products.enabled (Products.prevBtn (Products.doc st)) = false /\
  Products.pageInfo (Products.doc (Observe.clickNext st)) = Some "Page 2 of 0" /\
  Products.enabled (Products.nextBtn (Products.doc
     (Products.updatePagination 10 Products.initialState))) = false /\
  Products.enabled (Products.nextBtn (Products.doc
     (Products.updatePagination 11 Products.initialState))) = true.
Proof.
  repeat split; reflexivity.
Qed.

(** C5, as the claim states it: with no products the page indicator of
    the first page reads Page 1 of 0, not Page 1 of 1. *)
Theorem page_indicator_reads_page_1_of_0 :
  Products.pageInfo (Products.doc (Products.loadProducts [] Products.initialState))
    = Some "Page 1 of 0" /\
  Products.pageInfo (Products.doc (Products.updatePagination 0 Products.initialState))
    <> Some "Page 1 of 1".
Proof.
  split; [reflexivity|]. intro H. vm_compute in H. discriminate H.
Qed.

(** C5, amended.  With no products the page indicator shows the number
    of pages as it is computed, ceil(0 / 10) = 0: it reads
    Page <currentPage> of 0. *)
Theorem page_indicator_without_products :
  forall st,
    Products.pageInfo (Products.doc st) <> None ->
    Products.pageInfo (Products.doc (Products.updatePagination 0 st)) =
    Some ("Page " ++ Text.show_Z (Products.currentPage st) ++ " of 0").
Proof.
  intros st H. unfold Products.updatePagination; simpl.
  destruct (Products.pageInfo (Products.doc st)); [reflexivity|contradiction].
Qed.

Lemma page_indicator_without_products_witness :
  Products.pageInfo (Products.doc Products.initialState) <> None /\
  Products.pageInfo (Products.doc (Products.updatePagination 0 Products.initialState)) =
  Some "Page 1 of 0".
Proof.
  assert (H : Products.pageInfo (Products.doc Products.initialState) <> None)
    by (simpl; discriminate).
  split; [exact H|].
  apply (page_indicator_without_products Products.initialState H).
Defined.

(** ** Paging of the table *)

Section Slices.

Context {A : Type}.

Lemma take_more_than_length :
  forall (n : nat) (l : list A), (List.length l <= n)%nat -> firstn n l = l.
Proof.
  induction n as [|n IH]; intros [|x l] H; simpl in *; try reflexivity; try lia.
  f_equal. apply IH. lia.
Qed.

Lemma drop_more_than_length :
  forall (n : nat) (l : list A), (List.length l <= n)%nat -> skipn n l = [].
Proof.
  induction n as [|n IH]; intros [|x l] H; simpl in *; try reflexivity; try lia.
  apply IH. lia.
Qed.

Lemma take_capped :
  forall (n : nat) (l : list A), firstn (Nat.min n (List.length l)) l = firstn n l.
Proof.
  induction n as [|n IH]; intros [|x l]; simpl; try reflexivity.
  f_equal. apply IH.
Qed.

(** Two adjacent windows make one. *)
Lemma take_then_next :
  forall (a b : nat) (l : list A),
    (firstn a l ++ firstn b (skipn a l))%list = firstn (a + b) l.
Proof.
  induction a as [|a IH]; intros b l; simpl; [reflexivity|].
  destruct l as [|x l]; simpl.
  - now rewrite firstn_nil.
  - f_equal. apply IH.
Qed.

(** [slice] between two indexes in order is a window of the list. *)
Lemma slice_window :
  forall (l : list A) (a b : nat),
    JsArray.slice l (Z.of_nat a) (Z.of_nat a + Z.of_nat b) = firstn b (skipn a l).
Proof.
  intros l a b. unfold JsArray.slice.
  destruct (Z.of_nat a <? 0) eqn:Ea; [apply Z.ltb_lt in Ea; lia|].
  destruct (Z.of_nat a + Z.of_nat b <? 0) eqn:Eb; [apply Z.ltb_lt in Eb; lia|].
  destruct (Nat.le_gt_cases (List.length l) a) as [Hout|Hin].
  - rewrite !Z.min_r by lia. rewrite Nat2Z.id.
    rewrite (drop_more_than_length (List.length l)) by lia.
    rewrite (drop_more_than_length a) by lia.
    now rewrite !firstn_nil.
  - rewrite (Z.min_l (Z.of_nat a)) by lia. rewrite Nat2Z.id.
    rewrite <- (take_capped b).
    f_equal. rewrite length_skipn. lia.
Qed.

End Slices.

(** The slice of page [i + 1] is the window of ten products after the
    first [10 * i]. *)
Lemma pageProducts_window :
  forall (i : nat) products,
    Products.pageProducts (Z.of_nat (S i)) products =
    firstn 10 (skipn (10 * i) products).
Proof.
  intros i products. unfold Products.pageProducts, Products.productsPerPage.
  cbv zeta.
  replace ((Z.of_nat (S i) - 1) * 10) with (Z.of_nat (10 * i)) by lia.
  exact (slice_window products (10 * i) 10).
Qed.

Lemma pages_up_to :
  forall (n : nat) products,
    List.concat (map (fun page => Products.pageProducts page products)
                (map Z.of_nat (seq 1 n))) =
    firstn (10 * n) products.
Proof.
  intros n products. rewrite <- seq_shift, !map_map.
  rewrite (map_ext _ (fun i => firstn 10 (skipn (10 * i) products)))
    by (intros; apply pageProducts_window).
  induction n as [|n IH].
  - reflexivity.
  - rewrite seq_S, map_app, concat_app, IH. cbn [map List.concat Nat.add].
    rewrite app_nil_r, take_then_next.
    f_equal. lia.
Qed.

Lemma join_empty_cons :
  forall x rest, Text.join EmptyString (x :: rest) = x ++ Text.join EmptyString rest.
Proof.
  intros x [|y rest]; simpl; [|reflexivity].
  induction x as [|c x IH]; simpl; [reflexivity|]. now rewrite <- IH.
Qed.

Lemma string_app_assoc :
  forall a b c : string, (a ++ b) ++ c = a ++ (b ++ c).
Proof.
  induction a as [|x a IH]; intros; simpl; [reflexivity|]. now rewrite IH.
Qed.

Lemma join_empty_app :
  forall l1 l2,
    Text.join EmptyString (l1 ++ l2)%list =
    Text.join EmptyString l1 ++ Text.join EmptyString l2.
Proof.
  induction l1 as [|x l1 IH]; intros l2.
  - reflexivity.
  - change ((x :: l1) ++ l2)%list with (x :: (l1 ++ l2)%list).
    rewrite !join_empty_cons, IH. now rewrite string_app_assoc.
Qed.

Lemma join_empty_concat :
  forall (ls : list (list string)),
    Text.join EmptyString (map (Text.join EmptyString) ls) =
    Text.join EmptyString (List.concat ls).
Proof.
  induction ls as [|l ls IH]; [reflexivity|].
  simpl map. simpl List.concat. rewrite join_empty_cons, join_empty_app. now rewrite IH.
Qed.

Lemma innerHTML_onPage :
  forall page products,
    Observe.innerHTML (Products.renderProductsTable products (Observe.onPage page products)) =
    Text.join EmptyString (map Products.row (Products.pageProducts page products)).
Proof. reflexivity. Qed.

(** C2.  Turning through the pages 1 .. ceil(length / 10) shows every
    product exactly once and in the order of the list: the slices of
    renderProductsTable, put one after the other, are the list, and the
    markup of the pages, put one after the other, is the markup of the rows
    of the whole list. *)
Theorem pages_reproduce_list :
  forall products,
    let pages := Observe.pageNumbers (Observe.totalPages products) in
    List.concat (map (fun page => Products.pageProducts page products) pages) = products /\
    Text.join EmptyString
      (map (fun page =>
              Observe.innerHTML
                (Products.renderProductsTable products (Observe.onPage page products)))
           pages) =
    Text.join EmptyString (map Products.row products).
Proof.
  intros products pages.
  assert (Hall : List.concat (map (fun page => Products.pageProducts page products) pages)
                 = products).
  { unfold pages, Observe.pageNumbers. rewrite pages_up_to.
    apply take_more_than_length.
    pose proof (ceil_div_10_spec (Z.of_nat (List.length products))) as Hc.
    unfold Observe.totalPages, Products.productsPerPage. lia. }
  split; [exact Hall|].
  rewrite (map_ext _ (fun page => Text.join EmptyString
             (map Products.row (Products.pageProducts page products))))
    by (intros; apply innerHTML_onPage).
  rewrite <- (map_map (fun page => map Products.row (Products.pageProducts page products))
                      (Text.join EmptyString)).
  rewrite join_empty_concat.
  rewrite <- (map_map (fun page => Products.pageProducts page products) (map Products.row)).
  rewrite <- concat_map, Hall. reflexivity.
Qed.

(** C6.  On a page beyond the last one renderProductsTable takes the
    empty slice and leaves the table body without rows; nothing in it can
    fail, and apart from the table body the state is as it was. *)
Theorem page_beyond_last_is_empty :
  forall products st,
    Observe.totalPages products < Products.currentPage st ->
    Products.pageProducts (Products.currentPage st) products = [] /\
    (Products.tbody (Products.doc st) <> None ->
     Products.tbody (Products.doc (Products.renderProductsTable products st))
       = Some EmptyString) /\
    Products.currentPage (Products.renderProductsTable products st)
      = Products.currentPage st.
Proof.
  intros products st Hpage.
  assert (Hempty : Products.pageProducts (Products.currentPage st) products = []).
  { pose proof (ceil_div_10_spec (Z.of_nat (List.length products))) as Hc.
    unfold Observe.totalPages, Products.productsPerPage in Hpage.
    assert (Hpos : 1 <= Products.currentPage st) by lia.
    destruct (Z_of_nat_complete (Products.currentPage st - 1)) as [i Hi]; [lia|].
    replace (Products.currentPage st) with (Z.of_nat (S i)) by lia.
    rewrite pageProducts_window, drop_more_than_length by lia.
    apply firstn_nil. }
  split; [exact Hempty|]. split.
  - intros Hbody. unfold Products.renderProductsTable.
    destruct (Products.tbody (Products.doc st)); [|contradiction].
    simpl. now rewrite Hempty.
  - unfold Products.renderProductsTable.
    destruct (Products.tbody (Products.doc st)); reflexivity.
Qed.

Lemma page_beyond_last_is_empty_witness :
  Observe.totalPages Sample.store < 2 /\
  Products.pageProducts 2 Sample.store = [] /\
  Products.tbody (Products.doc
    (Products.renderProductsTable Sample.store (Observe.onPage 2 Sample.store)))
    = Some EmptyString.
Proof.
  split; [reflexivity|].
  destruct (page_beyond_last_is_empty Sample.store (Observe.onPage 2 Sample.store))
    as [Hslice [Hbody _]]; [reflexivity|].
  split; [exact Hslice|]. apply Hbody. simpl. discriminate.
Defined.

(** ** Report totals *)





Example formatPrice_examples :
  Reports.formatPrice (Double.of_hundredths 150000) = "1,500.00" /\
  Reports.formatPrice (Double.of_hundredths 123456789) = "1,234,567.89" /\
  Reports.formatPrice (Double.of_hundredths 5) = "0.05" /\
  Reports.totalValueText Sample.store = "KSh 14,752.50".
Proof. repeat split; vm_compute; reflexivity. Qed.

(** ** CSV export *)

Section Splitting.

Variable sep : ascii.

Lemma split_on_nonempty :
  forall s, Text.split_on sep s <> [].
Proof.
  intros [|c s]; simpl; [discriminate|].
  destruct (Ascii.eqb c sep); [discriminate|].
  destruct (Text.split_on sep s); discriminate.
Qed.

(** A text without the separator is one piece. *)
Lemma split_on_plain :
  forall s, Text.contains_char sep s = false -> Text.split_on sep s = [s].
Proof.
  induction s as [|c s IH]; simpl; intros H; [reflexivity|].
  apply orb_false_iff in H. destruct H as [Hc Hs].
  rewrite Hc, (IH Hs). reflexivity.
Qed.

(** Splitting goes through a separator. *)
Lemma split_on_app :
  forall a b,
    Text.split_on sep (a ++ String sep b) =
    (Text.split_on sep a ++ Text.split_on sep b)%list.
Proof.
  induction a as [|c a IH]; intros b; simpl.
  - now rewrite Ascii.eqb_refl.
  - destruct (Ascii.eqb c sep).
    + now rewrite IH.
    + rewrite IH. pose proof (split_on_nonempty a) as Hne.
      destruct (Text.split_on sep a); [contradiction|reflexivity].
Qed.

Lemma contains_char_app :
  forall a b,
    Text.contains_char sep (a ++ b) =
    Text.contains_char sep a || Text.contains_char sep b.
Proof.
  induction a as [|c a IH]; intros b; simpl; [reflexivity|].
  now rewrite IH, orb_assoc.
Qed.

(** The separator is none of the characters of a printed number. *)
Hypothesis sep_not_numeric :
  forall d, In d (list_ascii_of_string "0123456789-.") -> Ascii.eqb d sep = false.

Ltac numeric_char H :=
  apply H; cbn; repeat (try (left; reflexivity); right).

Lemma no_sep_in_uint :
  forall u, Text.contains_char sep (NilEmpty.string_of_uint u) = false.
Proof.
  induction u; cbn [NilEmpty.string_of_uint Text.contains_char];
    try reflexivity;
    rewrite IHu, orb_false_r; numeric_char sep_not_numeric.
Qed.

Lemma no_sep_in_char :
  forall d,
    In d (list_ascii_of_string "0123456789-.") ->
    Text.contains_char sep (String d EmptyString) = false.
Proof.
  intros d Hd. cbn [Text.contains_char]. rewrite orb_false_r.
  now apply sep_not_numeric.
Qed.

Lemma no_sep_in_show_Z :
  forall n, Text.contains_char sep (Text.show_Z n) = false.
Proof.
  intros n. unfold Text.show_Z, NilZero.string_of_int.
  assert (Hu : forall u, Text.contains_char sep (NilZero.string_of_uint u) = false).
  { intros u. unfold NilZero.string_of_uint.
    destruct u; try apply no_sep_in_uint.
    apply no_sep_in_char. cbn. tauto. }
  destruct (Z.to_int n); [apply Hu|].
  cbn [Text.contains_char]. rewrite Hu, orb_false_r.
  numeric_char sep_not_numeric.
Qed.

Lemma no_sep_in_show_hundredths :
  forall x, Text.contains_char sep (Num.show_hundredths x) = false.
Proof.
  intros x. unfold Num.show_hundredths, Num.two_digits.
  assert (Hminus : Text.contains_char sep "-" = false)
    by (apply no_sep_in_char; cbn; tauto).
  assert (Hdot : Text.contains_char sep "." = false)
    by (apply no_sep_in_char; cbn; tauto).
  assert (Hzero : Text.contains_char sep "0" = false)
    by (apply no_sep_in_char; cbn; tauto).
  repeat match goal with
         | |- context [if ?b then _ else _] => destruct b
         end;
    repeat rewrite contains_char_app;
    repeat rewrite no_sep_in_show_Z;
    rewrite ?Hminus, ?Hdot, ?Hzero; reflexivity.
Qed.

End Splitting.

Lemma comma_not_numeric :
  forall d, In d (list_ascii_of_string "0123456789-.") -> Ascii.eqb d Text.comma = false.
Proof.
  intros d Hd. cbn in Hd.
  repeat (destruct Hd as [Hd|Hd]; [subst d; reflexivity|]). contradiction.
Qed.

Lemma newline_not_numeric :
  forall d, In d (list_ascii_of_string "0123456789-.") -> Ascii.eqb d Text.newline = false.
Proof.
  intros d Hd. cbn in Hd.
  repeat (destruct Hd as [Hd|Hd]; [subst d; reflexivity|]). contradiction.
Qed.

Lemma join_comma_cons :
  forall x y rest,
    Text.join "," (x :: y :: rest) = x ++ String Text.comma (Text.join "," (y :: rest)).
Proof. reflexivity. Qed.

Lemma join_nl_cons :
  forall x y rest,
    Text.join Text.nl (x :: y :: rest) =
    x ++ String Text.newline (Text.join Text.nl (y :: rest)).
Proof. reflexivity. Qed.

Lemma getStatusText_plain :
  forall sep stock,
    sep = Text.comma \/ sep = Text.newline ->
    Text.contains_char sep (Reports.getStatusText stock) = false.
Proof.
  intros sep stock [-> | ->]; unfold Reports.getStatusText;
    destruct (stock =? 0); try reflexivity; destruct (stock <? 10); reflexivity.
Qed.






(** ** The listing operation *)

Lemma is_prefix_spec :
  forall p s, Text.is_prefix p s = true <-> exists t, s = p ++ t.
Proof.
  induction p as [|a p IH]; intros s; simpl.
  - split; [intros _; now exists s | reflexivity].
  - destruct s as [|b s].
    + split; [discriminate | intros [t Ht]; discriminate Ht].
    + rewrite andb_true_iff, Ascii.eqb_eq, IH. split.
      * intros [-> [t ->]]. now exists t.
      * intros [t Ht]. inversion Ht; subst. split; [reflexivity | now exists t].
Qed.

Lemma is_substring_spec :
  forall needle hay,
    Text.is_substring needle hay = true <->
    exists before after, hay = before ++ needle ++ after.
Proof.
  intros needle hay. induction hay as [|c hay IH].
  - simpl. rewrite orb_false_r, is_prefix_spec. split.
    + intros [t Ht]. now exists EmptyString, t.
    + intros [[|b before] [after H]]; [now exists after | discriminate H].
  - cbn [Text.is_substring]. rewrite orb_true_iff, is_prefix_spec, IH. split.
    + intros [[t Ht] | [before [after ->]]].
      * now exists EmptyString, t.
      * now exists (String c before), after.
    + intros [[|b before] [after H]].
      * left. now exists after.
      * right. inversion H; subst. now exists before, after.
Qed.

Lemma truthy_spec :
  forall s, Text.truthy s = true <-> s <> EmptyString.
Proof.
  intros [|c s]; simpl; split; intro H; try discriminate; try reflexivity.
  now contradiction H.
Qed.

Lemma narrow_as_filter :
  forall value pred rows,
    Backend.narrow value pred rows =
    filter (fun p => negb (Text.truthy value) || pred value p) rows.
Proof.
  intros value pred rows. unfold Backend.narrow.
  destruct (Text.truthy value); simpl; [reflexivity|].
  induction rows as [|r rows IH]; simpl; [reflexivity | now rewrite <- IH].
Qed.

Lemma filter_twice :
  forall {A : Type} (f g : A -> bool) (l : list A),
    filter g (filter f l) = filter (fun x => f x && g x) l.
Proof.
  intros A f g. induction l as [|x l IH]; simpl; [reflexivity|].
  destruct (f x); simpl; [|exact IH].
  destruct (g x); now rewrite IH.
Qed.

Lemma matches_search_spec :
  forall text p,
    Backend.matches_search text p = true <->
    Backend.occurs_in text (name p) \/ Backend.occurs_in text (sku p) \/
    exists d, description p = Some d /\ Backend.occurs_in text d.
Proof.
  intros text p. unfold Backend.matches_search, Backend.occurs_in.
  rewrite !orb_true_iff, !is_substring_spec. split.
  - intros [[H|H]|H]; [now left | right; now left |].
    destruct (description p) as [d|]; [|discriminate H].
    right; right. exists d. split; [reflexivity|]. now apply is_substring_spec.
  - intros [H|[H|[d [Hd H]]]]; [left; now left | left; now right |].
    right. rewrite Hd. now apply is_substring_spec.
Qed.

Lemma satisfies_spec :
  forall f p,
    Backend.satisfies f p = true <->
    (Backend.by_search f <> EmptyString ->
       Backend.occurs_in (Backend.by_search f) (name p) \/
       Backend.occurs_in (Backend.by_search f) (sku p) \/
       exists d, description p = Some d /\ Backend.occurs_in (Backend.by_search f) d) /\
    (Backend.by_category f <> EmptyString -> category p = Backend.by_category f) /\
    (Backend.by_status f <> EmptyString ->
       status_class (status_table (stock_quantity p)) = Backend.by_status f).
Proof.
  intros f p. unfold Backend.satisfies.
  rewrite !andb_true_iff, !orb_true_iff, !negb_true_iff.
  rewrite matches_search_spec.
  unfold Backend.matches_category, Backend.matches_status.
  rewrite !String.eqb_eq.
  assert (Himp : forall s (P : Prop),
             (Text.truthy s = false \/ P) <-> (s <> EmptyString -> P)).
  { intros s P. destruct s as [|c s]; simpl; split.
    - intros _ Hne. now contradiction Hne.
    - intros _. now left.
    - intros [H|H] _; [discriminate H | exact H].
    - intros H. right. apply H. discriminate. }
  rewrite !Himp. tauto.
Qed.

(** C8.  The listing returns exactly the products of the store that
    satisfy every supplied filter, in the order of the store: a product is
    listed if and only if it is in the store and, for each filter that is
    not empty, meets it, where the search text is met when it occurs, letter
    case ignored, in the name, in the sku or in the description. *)
Theorem list_products_exact :
  forall f store,
    Backend.list_products f store = filter (Backend.satisfies f) store /\
    (forall p,
       In p (Backend.list_products f store) <->
       In p store /\
       (Backend.by_search f <> EmptyString ->
          Backend.occurs_in (Backend.by_search f) (name p) \/
          Backend.occurs_in (Backend.by_search f) (sku p) \/
          exists d, description p = Some d /\
                    Backend.occurs_in (Backend.by_search f) d) /\
       (Backend.by_category f <> EmptyString -> category p = Backend.by_category f) /\
       (Backend.by_status f <> EmptyString ->
          status_class (status_table (stock_quantity p)) = Backend.by_status f)).
Proof.
  intros f store.
  assert (Heq : Backend.list_products f store = filter (Backend.satisfies f) store).
  { unfold Backend.list_products. rewrite !narrow_as_filter, !filter_twice.
    apply filter_ext. intros p. unfold Backend.satisfies. now rewrite andb_assoc. }
  split; [exact Heq|].
  intros p. rewrite Heq, filter_In, satisfies_spec. reflexivity.
Qed.

(** The scenario of the seeded store: the category filter finds A1 and
    A3, the status filter finds A2, a search in capitals finds the cable. *)
Example list_products_seeded :
  Backend.list_products (Backend.Filters EmptyString "Electronics" EmptyString) Sample.store
    = [Sample.a1; Sample.a3] /\
  Backend.list_products (Backend.Filters EmptyString EmptyString "low-stock") Sample.store
    = [Sample.a2] /\
  Backend.list_products (Backend.Filters "CABLE" "Electronics" "in-stock") Sample.store
    = [Sample.a3].
Proof. repeat split; reflexivity. Qed.

(** * Further properties of the scripts *)

(** ** The deleting loop of loadProducts *)

Lemma delete_other_names :
  forall name params,
    ~ In name (map fst params) -> URLSearchParams.delete name params = params.
Proof.
  intros name0 params. unfold URLSearchParams.delete.
  induction params as [|[k v] rest IH]; simpl; intros Hnot; [reflexivity|].
  destruct (String.eqb k name0) eqn:E.
  - apply String.eqb_eq in E. exfalso. apply Hnot. now left.
  - simpl. f_equal. apply IH. intros Hin. apply Hnot. now right.
Qed.

(** With distinct names [delete] takes out the one pair of that name. *)
Lemma delete_the_pair :
  forall pre key value rest,
    ParamsSpec.distinct_names (pre ++ (key, value) :: rest)%list ->
    URLSearchParams.delete key (pre ++ (key, value) :: rest)%list = (pre ++ rest)%list.
Proof.
  intros pre key value rest Hnd. unfold ParamsSpec.distinct_names in Hnd.
  rewrite map_app in Hnd. simpl in Hnd.
  pose proof (NoDup_remove_2 _ _ _ Hnd) as Hnot.
  assert (Hpre : ~ In key (map fst pre))
    by (intros H; apply Hnot, in_or_app; now left).
  assert (Hrest : ~ In key (map fst rest))
    by (intros H; apply Hnot, in_or_app; now right).
  pose proof (delete_other_names key pre Hpre) as Dpre.
  pose proof (delete_other_names key rest Hrest) as Drest.
  unfold URLSearchParams.delete in *.
  rewrite filter_app. simpl. rewrite String.eqb_refl. simpl.
  now rewrite Dpre, Drest.
Qed.

Lemma nth_error_after :
  forall {A : Type} (pre suf : list A),
    nth_error (pre ++ suf)%list (List.length pre) = nth_error suf 0.
Proof.
  intros A pre suf. induction pre as [|x pre IH]; simpl; [reflexivity|exact IH].
Qed.

Lemma distinct_names_drop :
  forall pre kv rest,
    ParamsSpec.distinct_names (pre ++ kv :: rest)%list ->
    ParamsSpec.distinct_names (pre ++ rest)%list.
Proof.
  intros pre kv rest. unfold ParamsSpec.distinct_names.
  rewrite !map_app. simpl. apply NoDup_remove_1.
Qed.

(** The state of the loop after [length pre] steps: the pairs before the
    index are settled, the pairs from the index on are still to be swept. *)
Lemma delete_empty_loop_sweep :
  forall fuel pre suf,
    ParamsSpec.distinct_names (pre ++ suf)%list ->
    (List.length suf <= fuel)%nat ->
    URLSearchParams.delete_empty_loop fuel (List.length pre) (pre ++ suf)%list =
    (pre ++ ParamsSpec.sweep suf)%list.
Proof.
  induction fuel as [|fuel IH]; intros pre suf Hnd Hlen.
  - destruct suf; [reflexivity | simpl in Hlen; lia].
  - cbn [URLSearchParams.delete_empty_loop]. rewrite nth_error_after.
    destruct suf as [|[key value] rest]; [reflexivity|].
    cbn [nth_error ParamsSpec.sweep]. simpl in Hlen.
    destruct (Text.truthy value); cbn [negb].
    + replace (pre ++ (key, value) :: rest)%list
        with ((pre ++ [(key, value)]) ++ rest)%list
        by (now rewrite <- app_assoc).
      replace (S (List.length pre)) with (List.length (pre ++ [(key, value)])%list)
        by (rewrite length_app; simpl; lia).
      rewrite IH; [now rewrite <- app_assoc | now rewrite <- app_assoc | lia].
    + rewrite (delete_the_pair _ _ _ _ Hnd).
      apply distinct_names_drop in Hnd.
      destruct rest as [|next rest'].
      * rewrite app_nil_r.
        destruct fuel; [reflexivity|]. cbn [URLSearchParams.delete_empty_loop].
        replace (nth_error pre (S (List.length pre))) with (@None (string * string))
          by (symmetry; apply nth_error_None; lia).
        reflexivity.
      * replace (pre ++ next :: rest')%list with ((pre ++ [next]) ++ rest')%list
          by (now rewrite <- app_assoc).
        replace (S (List.length pre)) with (List.length (pre ++ [next])%list)
          by (rewrite length_app; simpl; lia).
        simpl in Hlen.
        rewrite IH; [now rewrite <- app_assoc | now rewrite <- app_assoc | lia].
Qed.

Lemma delete_empty_sweep :
  forall params,
    ParamsSpec.distinct_names params ->
    URLSearchParams.delete_empty_loop (List.length params) 0 params =
    ParamsSpec.sweep params.
Proof.
  intros params Hnd.
  apply (delete_empty_loop_sweep (List.length params) [] params Hnd). lia.
Qed.

(** X1.  On parameters with pairwise distinct names the loop that is to
    remove the empty values removes an empty value and then steps over the
    parameter that follows it: its result is [sweep] of the list. *)
Theorem delete_empty_is_sweep :
  forall params,
    ParamsSpec.distinct_names params ->
    URLSearchParams.delete_empty params = ParamsSpec.sweep params.
Proof.
  intros params Hnd. unfold URLSearchParams.delete_empty.
  apply (delete_empty_loop_sweep (List.length params) [] params Hnd). lia.
Qed.

Lemma delete_empty_is_sweep_witness :
  ParamsSpec.distinct_names
    [("a", EmptyString); ("b", EmptyString); ("c", "x"); ("d", EmptyString)] /\
  URLSearchParams.delete_empty
    [("a", EmptyString); ("b", EmptyString); ("c", "x"); ("d", EmptyString)] =
  [("b", EmptyString); ("c", "x")].
Proof.
  assert (H : ParamsSpec.distinct_names
                [("a", EmptyString); ("b", EmptyString); ("c", "x"); ("d", EmptyString)]).
  { unfold ParamsSpec.distinct_names. simpl.
    repeat constructor; simpl; intuition discriminate. }
  split; [exact H|].
  exact (delete_empty_is_sweep _ H).
Defined.

Lemma sweep_keeps_values :
  forall n params key value,
    (List.length params <= n)%nat ->
    In (key, value) params -> Text.truthy value = true ->
    In (key, value) (ParamsSpec.sweep params).
Proof.
  induction n as [|n IH]; intros params key value Hlen Hin Hv.
  - destruct params; [contradiction | simpl in Hlen; lia].
  - destruct params as [|[k v] rest]; [contradiction|].
    simpl in Hlen. cbn [ParamsSpec.sweep].
    destruct (Text.truthy v) eqn:Ev.
    + destruct Hin as [Heq|Hin]; [left; exact Heq|].
      right. apply IH; [lia | exact Hin | exact Hv].
    + destruct Hin as [Heq|Hin].
      * inversion Heq; subst. rewrite Hv in Ev. discriminate Ev.
      * destruct rest as [|next rest']; [contradiction|].
        destruct Hin as [Heq|Hin]; [left; exact Heq|].
        right. simpl in Hlen. apply IH; [lia | exact Hin | exact Hv].
Qed.

(** X2.  With distinct names the loop never loses a parameter that has a
    value: every pair with a non-empty value is still there afterwards. *)
Theorem delete_empty_keeps_values :
  forall params key value,
    ParamsSpec.distinct_names params ->
    In (key, value) params -> value <> EmptyString ->
    In (key, value) (URLSearchParams.delete_empty params).
Proof.
  intros params key value Hnd Hin Hv.
  unfold URLSearchParams.delete_empty. rewrite (delete_empty_sweep params Hnd).
  apply (sweep_keeps_values (List.length params)); [lia | exact Hin |].
  destruct value; [now contradiction Hv | reflexivity].
Qed.

Lemma delete_empty_keeps_values_witness :
  ParamsSpec.distinct_names
    (ProductsPage.initialParams 2 (ProductsPage.Filters EmptyString EmptyString "low-stock")) /\
  In ("status", "low-stock")
     (ProductsPage.initialParams 2 (ProductsPage.Filters EmptyString EmptyString "low-stock")) /\
  "low-stock" <> EmptyString /\
  In ("status", "low-stock")
     (URLSearchParams.delete_empty
        (ProductsPage.initialParams 2
           (ProductsPage.Filters EmptyString EmptyString "low-stock"))).
Proof.
  assert (Hnd : ParamsSpec.distinct_names
    (ProductsPage.initialParams 2 (ProductsPage.Filters EmptyString EmptyString "low-stock"))).
  { unfold ParamsSpec.distinct_names. simpl.
    repeat constructor; simpl; intuition discriminate. }
  assert (Hin : In ("status", "low-stock")
    (ProductsPage.initialParams 2 (ProductsPage.Filters EmptyString EmptyString "low-stock")))
    by (simpl; tauto).
  assert (Hv : "low-stock" <> EmptyString) by discriminate.
  split; [exact Hnd|]. split; [exact Hin|]. split; [exact Hv|].
  exact (delete_empty_keeps_values _ _ _ Hnd Hin Hv).
Defined.

(** Without distinct names the loop can lose a value: deleting the empty
    first [a] takes the second [a] with it. *)
Example delete_empty_repeated_name :
  URLSearchParams.delete_empty [("a", EmptyString); ("b", "1"); ("a", "2")] = [("b", "1")].
Proof. reflexivity. Qed.

(** ** The request of loadProducts, for every page and every filter *)

Lemma loadProducts_params_shape :
  forall page f,
    ProductsPage.loadProducts_params page f =
    ("page", Text.show_Z page) :: ("per_page", "10") ::
    ParamsSpec.sweep [("search", ProductsPage.search f);
                      ("category", ProductsPage.category f);
                      ("status", ProductsPage.status f)].
Proof.
  intros page f. unfold ProductsPage.loadProducts_params, URLSearchParams.delete_empty.
  rewrite delete_empty_sweep.
  - unfold ProductsPage.initialParams.
    cbn [ParamsSpec.sweep]. rewrite show_Z_truthy.
    change (Text.truthy (Text.show_Z 10)) with true. cbv iota.
    reflexivity.
  - unfold ParamsSpec.distinct_names, ProductsPage.initialParams. simpl.
    repeat constructor; simpl; intuition discriminate.
Qed.

(** X3.  Which empty filters loadProducts sends, for every page and every
    value of the three filters: an empty search is never sent; an empty
    category is sent exactly when the search is empty too; an empty status
    is sent exactly when the category is empty and the search is not. *)
Theorem loadProducts_empty_filters_sent :
  forall page f,
    let params := ProductsPage.loadProducts_params page f in
    ~ In ("search", EmptyString) params /\
    (In ("category", EmptyString) params <->
       ProductsPage.category f = EmptyString /\ ProductsPage.search f = EmptyString) /\
    (In ("status", EmptyString) params <->
       ProductsPage.status f = EmptyString /\ ProductsPage.category f = EmptyString /\
       ProductsPage.search f <> EmptyString).
Proof.
  intros page f params. unfold params. rewrite loadProducts_params_shape.
  destruct f as [[|a s] [|b c] [|d t]]; cbn;
    repeat split; intros; intuition (try discriminate; try congruence).
Qed.

(** X4.  When no empty filter directly follows another empty filter, the
    request of loadProducts carries no empty parameter, and it carries every
    filter that has a value. *)
Theorem loadProducts_params_clean :
  forall page f,
    (ProductsPage.search f <> EmptyString \/ ProductsPage.category f <> EmptyString) ->
    (ProductsPage.category f <> EmptyString \/ ProductsPage.status f <> EmptyString) ->
    ProductsPage.loadProducts_params page f =
    ("page", Text.show_Z page) :: ("per_page", "10") ::
    filter (fun kv => Text.truthy (snd kv))
           [("search", ProductsPage.search f);
            ("category", ProductsPage.category f);
            ("status", ProductsPage.status f)].
Proof.
  intros page f H1 H2. rewrite loadProducts_params_shape.
  destruct f as [[|a s] [|b c] [|d t]]; cbn in *;
    try reflexivity; exfalso; intuition congruence.
Qed.

Lemma loadProducts_params_clean_witness :
  (EmptyString <> EmptyString \/ "Electronics" <> EmptyString) /\
  ("Electronics" <> EmptyString \/ EmptyString <> EmptyString) /\
  ProductsPage.loadProducts_params 3
    (ProductsPage.Filters EmptyString "Electronics" EmptyString) =
  [("page", "3"); ("per_page", "10"); ("category", "Electronics")].
Proof.
  assert (H1 : EmptyString <> EmptyString \/ "Electronics" <> EmptyString)
    by (right; discriminate).
  assert (H2 : "Electronics" <> EmptyString \/ EmptyString <> EmptyString)
    by (left; discriminate).
  split; [exact H1|]. split; [exact H2|].
  exact (loadProducts_params_clean 3
           (ProductsPage.Filters EmptyString "Electronics" EmptyString) H1 H2).
Defined.

(** ** The request of getProducts *)

Lemma getProducts_params_supplied :
  forall f, InventoryAPI.getProducts_params f = ParamsSpec.supplied_filters f.
Proof.
  intros [[[|a c]|] [[|b s]|] [[|d t]|]]; reflexivity.
Qed.

Lemma truthy_app_char :
  forall a c b, Text.truthy (a ++ String c b) = true.
Proof. intros [|x a] c b; reflexivity. Qed.

Lemma toString_truthy :
  forall params, params <> [] -> Text.truthy (URLSearchParams.toString params) = true.
Proof.
  intros [|[k v] rest] H; [now contradiction H|].
  unfold URLSearchParams.toString. cbn [map fst snd Text.join].
  destruct (map _ rest).
  - apply truthy_app_char.
  - rewrite string_app_assoc. apply truthy_app_char.
Qed.

(** X5.  getProducts requests the bare path /api/products, without a
    question mark, exactly when none of the three filters is supplied; a
    missing filter and an empty one count alike. *)
Theorem getProducts_url_bare :
  forall f,
    InventoryAPI.getProducts_url f = "/api/products" <->
    ParamsSpec.supplied (InventoryAPI.category f) = false /\
    ParamsSpec.supplied (InventoryAPI.search f) = false /\
    ParamsSpec.supplied (InventoryAPI.status f) = false.
Proof.
  intros f. unfold InventoryAPI.getProducts_url. cbv zeta.
  destruct (InventoryAPI.getProducts_params f) as [|kv rest] eqn:E.
  - cbn. split; [intros _ | reflexivity].
    rewrite getProducts_params_supplied in E.
    destruct f as [[[|a c]|] [[|b s]|] [[|d t]|]]; cbn in *;
      try discriminate E; repeat split.
  - rewrite toString_truthy by discriminate. split.
    + cbn. intros H. discriminate H.
    + intros (Hc & Hs & Ht). rewrite getProducts_params_supplied in E.
      destruct f as [[[|a c]|] [[|b s]|] [[|d t]|]]; cbn in *; discriminate.
Qed.

Section Joined.

Variable sep : ascii.

(** Pieces without the separator come back from the joined text. *)
Lemma split_joined :
  forall rest first,
    Text.contains_char sep first = false ->
    (forall r, In r rest -> Text.contains_char sep r = false) ->
    Text.split_on sep (Text.join (String sep EmptyString) (first :: rest)) = first :: rest.
Proof.
  induction rest as [|r rest IH]; intros first Hfirst Hrest.
  - cbn [Text.join]. now apply split_on_plain.
  - change (Text.join (String sep EmptyString) (first :: r :: rest))
      with (first ++ String sep (Text.join (String sep EmptyString) (r :: rest))).
    rewrite split_on_app, (split_on_plain _ _ Hfirst).
    rewrite IH; [reflexivity| |].
    + apply Hrest. now left.
    + intros r' Hr'. apply Hrest. now right.
Qed.

End Joined.

(** The serializer writes neither [&] nor [=]. *)
Lemma encode_byte_plain :
  forall c,
    Text.contains_char ParamsSpec.ampersand (URLSearchParams.encode_byte c) = false /\
    Text.contains_char ParamsSpec.equals_sign (URLSearchParams.encode_byte c) = false.
Proof.
  intros [[] [] [] [] [] [] [] []]; split; reflexivity.
Qed.

Lemma encode_plain :
  forall s,
    Text.contains_char ParamsSpec.ampersand (URLSearchParams.encode s) = false /\
    Text.contains_char ParamsSpec.equals_sign (URLSearchParams.encode s) = false.
Proof.
  induction s as [|c s [IHa IHe]]; [split; reflexivity|].
  cbn [URLSearchParams.encode]. rewrite !contains_char_app, IHa, IHe.
  destruct (encode_byte_plain c) as [Ha He]. now rewrite Ha, He.
Qed.

(** X6.  Whatever characters the filter values hold, the query string of
    getProducts splits at the ampersands into one piece per supplied filter,
    in the order category, search, status, and each piece splits at the
    equals sign into the name and the encoded value: a value cannot add or
    change a parameter. *)
Theorem getProducts_query_pieces :
  forall f,
    ParamsSpec.supplied_filters f <> [] ->
    let query := URLSearchParams.toString (InventoryAPI.getProducts_params f) in
    Text.split_on ParamsSpec.ampersand query =
      map ParamsSpec.pair_text (ParamsSpec.supplied_filters f) /\
    (forall kv, In kv (ParamsSpec.supplied_filters f) ->
       Text.split_on ParamsSpec.equals_sign (ParamsSpec.pair_text kv) =
       [fst kv; URLSearchParams.encode (snd kv)]).
Proof.
  intros f Hne query. unfold query. rewrite getProducts_params_supplied. split.
  - unfold URLSearchParams.toString.
    change (fun kv : string * string =>
              URLSearchParams.encode (fst kv) ++ "=" ++ URLSearchParams.encode (snd kv))
      with ParamsSpec.pair_text.
    destruct (ParamsSpec.supplied_filters f) as [|kv rest]; [now contradiction Hne|].
    cbn [map]. apply (split_joined ParamsSpec.ampersand).
    + unfold ParamsSpec.pair_text. rewrite !contains_char_app.
      rewrite (proj1 (encode_plain (fst kv))), (proj1 (encode_plain (snd kv))).
      reflexivity.
    + intros r Hr. apply in_map_iff in Hr. destruct Hr as [kv' [<- _]].
      unfold ParamsSpec.pair_text. rewrite !contains_char_app.
      rewrite (proj1 (encode_plain (fst kv'))), (proj1 (encode_plain (snd kv'))).
      reflexivity.
  - intros kv Hin.
    assert (Hname : URLSearchParams.encode (fst kv) = fst kv).
    { unfold ParamsSpec.supplied_filters in Hin. cbn [flat_map fst snd] in Hin.
      apply in_app_or in Hin. destruct Hin as [Hin|Hin].
      - destruct (InventoryAPI.category f) as [[|? ?]|]; try contradiction.
        destruct Hin as [<-|[]]. reflexivity.
      - apply in_app_or in Hin. destruct Hin as [Hin|Hin].
        + destruct (InventoryAPI.search f) as [[|? ?]|]; try contradiction.
          destruct Hin as [<-|[]]. reflexivity.
        + apply in_app_or in Hin. destruct Hin as [Hin|[]].
          destruct (InventoryAPI.status f) as [[|? ?]|]; try contradiction.
          destruct Hin as [<-|[]]. reflexivity. }
    unfold ParamsSpec.pair_text. rewrite Hname.
    change ("=" ++ URLSearchParams.encode (snd kv))
      with (String ParamsSpec.equals_sign (URLSearchParams.encode (snd kv))).
    rewrite split_on_app.
    rewrite (split_on_plain _ _ (proj2 (encode_plain (snd kv)))).
    rewrite <- Hname at 1.
    rewrite (split_on_plain _ _ (proj2 (encode_plain (fst kv)))).
    rewrite Hname. reflexivity.
Qed.

Lemma getProducts_query_pieces_witness :
  ParamsSpec.supplied_filters
    (InventoryAPI.Filters (Some "Supplies") (Some "pen&status=x") None) <> [] /\
  Text.split_on ParamsSpec.ampersand
    (URLSearchParams.toString
       (InventoryAPI.getProducts_params
          (InventoryAPI.Filters (Some "Supplies") (Some "pen&status=x") None))) =
  ["category=Supplies"; "search=pen%26status%3Dx"].
Proof.
  assert (H : ParamsSpec.supplied_filters
    (InventoryAPI.Filters (Some "Supplies") (Some "pen&status=x") None) <> [])
    by (cbn; discriminate).
  split; [exact H|].
  exact (proj1 (getProducts_query_pieces _ H)).
Defined.

(** ** Paging by clicks *)

(** With all nodes in the page, what [changePage] leaves depends on the
    loaded products and the page only. *)
Lemma changePage_shown :
  forall page st,
    Paging.complete (Products.doc st) ->
    Products.changePage page st = Paging.shown (Products.currentProducts st) page.
Proof.
  intros page [products current [body info prev next]] (Hb & Hi & Hp & Hn).
  simpl in *.
  destruct body; [|contradiction]. destruct info; [|contradiction].
  destruct prev; [|contradiction]. destruct next; [|contradiction].
  reflexivity.
Qed.

Lemma loadProducts_shown :
  forall products st,
    Paging.complete (Products.doc st) ->
    Products.loadProducts products st = Paging.shown products (Products.currentPage st).
Proof.
  intros products [old current [body info prev next]] (Hb & Hi & Hp & Hn).
  simpl in *.
  destruct body; [|contradiction]. destruct info; [|contradiction].
  destruct prev; [|contradiction]. destruct next; [|contradiction].
  reflexivity.
Qed.

Lemma shown_complete :
  forall products page, Paging.complete (Products.doc (Paging.shown products page)).
Proof.
  intros products page. repeat split; simpl; discriminate.
Qed.

Lemma shown_products :
  forall products page, Products.currentProducts (Paging.shown products page) = products.
Proof. reflexivity. Qed.

Lemma shown_page :
  forall products page, Products.currentPage (Paging.shown products page) = page.
Proof. reflexivity. Qed.

Lemma clickNext_shown :
  forall products page,
    Observe.clickNext (Paging.shown products page) =
    Paging.shown products
      (if page =? Observe.totalPages products then page else page + 1).
Proof.
  intros products page.
  unfold Observe.clickNext.
  change (Products.nextBtn (Products.doc (Paging.shown products page)))
    with (Some (Products.Button (page =? Observe.totalPages products)
                                (Some Products.GoToNext))).
  unfold Products.click. cbn [Products.disabled Products.onclick].
  destruct (page =? Observe.totalPages products); [reflexivity|].
  rewrite changePage_shown by apply shown_complete.
  now rewrite shown_products, shown_page.
Qed.

Lemma clickPrev_shown :
  forall products page,
    Paging.clickPrev (Paging.shown products page) =
    Paging.shown products (if page =? 1 then page else page - 1).
Proof.
  intros products page.
  unfold Paging.clickPrev.
  change (Products.prevBtn (Products.doc (Paging.shown products page)))
    with (Some (Products.Button (page =? 1) (Some Products.GoToPrevious))).
  unfold Products.click. cbn [Products.disabled Products.onclick].
  destruct (page =? 1); [reflexivity|].
  rewrite changePage_shown by apply shown_complete.
  now rewrite shown_products, shown_page.
Qed.

Lemma clicks_stay_in_range :
  forall products hs page,
    1 <= page <= Observe.totalPages products ->
    exists page',
      1 <= page' <= Observe.totalPages products /\
      Paging.clicks hs (Paging.shown products page) = Paging.shown products page'.
Proof.
  intros products. induction hs as [|h hs IH]; intros page Hpage.
  - exists page. split; [exact Hpage | reflexivity].
  - destruct h; cbn [Paging.clicks].
    + rewrite clickPrev_shown. apply IH.
      destruct (page =? 1) eqn:E; lia.
    + rewrite clickNext_shown. apply IH.
      destruct (page =? Observe.totalPages products) eqn:E; lia.
Qed.

(** X7.  After a list that is not empty has been loaded on the first
    page, no sequence of clicks on the two paging controls leaves the pages
    of the list: the current page stays between 1 and the number of pages. *)
Theorem clicks_keep_page_in_range :
  forall products hs,
    products <> [] ->
    let st := Paging.clicks hs (Products.loadProducts products Products.initialState) in
    1 <= Products.currentPage st <= Observe.totalPages products /\
    Products.currentProducts st = products.
Proof.
  intros products hs Hne st. unfold st.
  rewrite loadProducts_shown by (repeat split; simpl; discriminate).
  change (Products.currentPage Products.initialState) with 1.
  assert (Hpages : 1 <= 1 <= Observe.totalPages products).
  { pose proof (ceil_div_10_spec (Z.of_nat (List.length products))) as Hc.
    unfold Observe.totalPages, Products.productsPerPage.
    destruct products; [now contradiction Hne|]. simpl List.length in *. lia. }
  destruct (clicks_stay_in_range products hs 1 Hpages) as [page' [Hr ->]].
  now rewrite shown_page, shown_products.
Qed.

Lemma clicks_keep_page_in_range_witness :
  Sample.store <> [] /\
  1 <= Products.currentPage
         (Paging.clicks [Products.GoToNext; Products.GoToNext; Products.GoToPrevious]
            (Products.loadProducts Sample.store Products.initialState))
    <= Observe.totalPages Sample.store.
Proof.
  assert (H : Sample.store <> []) by discriminate.
  split; [exact H|].
  exact (proj1 (clicks_keep_page_in_range Sample.store
           [Products.GoToNext; Products.GoToNext; Products.GoToPrevious] H)).
Defined.

(** X8.  Next and then previous, on a page before the last, brings the
    page back exactly as it was, and so does previous and then next on a page
    after the first. *)
Theorem next_then_previous_restores :
  forall page st,
    Paging.complete (Products.doc st) ->
    1 <= page <= Observe.totalPages (Products.currentProducts st) ->
    (page < Observe.totalPages (Products.currentProducts st) ->
     Paging.clickPrev (Observe.clickNext (Products.changePage page st)) =
     Products.changePage page st) /\
    (1 < page ->
     Observe.clickNext (Paging.clickPrev (Products.changePage page st)) =
     Products.changePage page st).
Proof.
  intros page st Hc Hpage. rewrite (changePage_shown page st Hc).
  set (products := Products.currentProducts st) in *.
  split; intros Hstrict.
  - rewrite clickNext_shown.
    destruct (page =? Observe.totalPages products) eqn:E; [lia|].
    rewrite clickPrev_shown.
    destruct (page + 1 =? 1) eqn:F; [lia|].
    f_equal. lia.
  - rewrite clickPrev_shown.
    destruct (page =? 1) eqn:E; [lia|].
    rewrite clickNext_shown.
    destruct (page - 1 =? Observe.totalPages products) eqn:F; [lia|].
    f_equal. lia.
Qed.

Lemma next_then_previous_restores_witness :
  Paging.complete (Products.doc (Observe.onPage 1 (Sample.store ++ Sample.store ++
     Sample.store ++ Sample.store)%list)) /\
  1 <= 1 <= Observe.totalPages (Sample.store ++ Sample.store ++
     Sample.store ++ Sample.store)%list /\
  1 < Observe.totalPages (Sample.store ++ Sample.store ++
     Sample.store ++ Sample.store)%list /\
  Paging.clickPrev (Observe.clickNext (Products.changePage 1
     (Observe.onPage 1 (Sample.store ++ Sample.store ++ Sample.store ++ Sample.store)%list))) =
  Products.changePage 1
     (Observe.onPage 1 (Sample.store ++ Sample.store ++ Sample.store ++ Sample.store)%list).
Proof.
  assert (Hc : Paging.complete (Products.doc (Observe.onPage 1 (Sample.store ++
     Sample.store ++ Sample.store ++ Sample.store)%list)))
    by (repeat split; simpl; discriminate).
  assert (Hr : 1 <= 1 <= Observe.totalPages (Sample.store ++ Sample.store ++
     Sample.store ++ Sample.store)%list)
    by (split; intro H; discriminate H).
  assert (Hs : 1 < Observe.totalPages (Sample.store ++ Sample.store ++
     Sample.store ++ Sample.store)%list)
    by reflexivity.
  split; [exact Hc|]. split; [exact Hr|]. split; [exact Hs|].
  exact (proj1 (next_then_previous_restores 1 _ Hc Hr) Hs).
Defined.

Lemma pageProducts_beyond_last :
  forall products page,
    Observe.totalPages products < page -> Products.pageProducts page products = [].
Proof.
  intros products page Hpage.
  pose proof (ceil_div_10_spec (Z.of_nat (List.length products))) as Hc.
  unfold Observe.totalPages, Products.productsPerPage in Hpage.
  destruct (Z_of_nat_complete (page - 1)) as [i Hi]; [lia|].
  replace page with (Z.of_nat (S i)) by lia.
  rewrite pageProducts_window, drop_more_than_length by lia.
  apply firstn_nil.
Qed.

(** X9.  loadProducts keeps the current page.  When the list that
    arrives has fewer pages than the page the user is on, the table body is
    left without rows although the list may hold products, and the page
    indicator shows a page beyond the last. *)
Theorem loadProducts_keeps_stale_page :
  forall products st,
    Paging.complete (Products.doc st) ->
    Observe.totalPages products < Products.currentPage st ->
    let st' := Products.loadProducts products st in
    Products.currentPage st' = Products.currentPage st /\
    Products.tbody (Products.doc st') = Some EmptyString /\
    Products.pageInfo (Products.doc st') =
      Some ("Page " ++ Text.show_Z (Products.currentPage st) ++ " of " ++
            Text.show_Z (Observe.totalPages products)) /\
    Products.enabled (Products.nextBtn (Products.doc st')) = true.
Proof.
  intros products st Hc Hstale st'. unfold st'.
  rewrite (loadProducts_shown products st Hc).
  set (page := Products.currentPage st) in *.
  split; [reflexivity|]. split.
  - change (Products.tbody (Products.doc (Paging.shown products page)))
      with (Some (Text.join EmptyString (map Products.row (Products.pageProducts page products)))).
    now rewrite (pageProducts_beyond_last products page Hstale).
  - split; [reflexivity|].
    change (Products.enabled (Products.nextBtn (Products.doc (Paging.shown products page))))
      with (negb (page =? Observe.totalPages products)).
    destruct (page =? Observe.totalPages products) eqn:E; [lia | reflexivity].
Qed.

Lemma loadProducts_keeps_stale_page_witness :
  Paging.complete (Products.doc (Observe.onPage 3 [])) /\
  Observe.totalPages Sample.store < Products.currentPage (Observe.onPage 3 []) /\
  Products.tbody (Products.doc (Products.loadProducts Sample.store (Observe.onPage 3 [])))
    = Some EmptyString /\
  Products.pageInfo (Products.doc (Products.loadProducts Sample.store (Observe.onPage 3 [])))
    = Some "Page 3 of 1".
Proof.
  assert (Hc : Paging.complete (Products.doc (Observe.onPage 3 [])))
    by (repeat split; simpl; discriminate).
  assert (Hs : Observe.totalPages Sample.store < Products.currentPage (Observe.onPage 3 []))
    by reflexivity.
  split; [exact Hc|]. split; [exact Hs|].
  destruct (loadProducts_keeps_stale_page Sample.store (Observe.onPage 3 []) Hc Hs)
    as (_ & Hbody & Hinfo & _).
  split; [exact Hbody | exact Hinfo].
Defined.

(** X10.  A page of the table holds at most ten rows: on page [page] the
    slice has as many products as are left after the first 10 * (page - 1),
    up to ten. *)
Theorem pageProducts_size :
  forall products page,
    1 <= page ->
    Z.of_nat (List.length (Products.pageProducts page products)) =
    Z.max 0 (Z.min 10 (Z.of_nat (List.length products) - 10 * (page - 1))).
Proof.
  intros products page Hpage.
  destruct (Z_of_nat_complete (page - 1)) as [i Hi]; [lia|].
  replace page with (Z.of_nat (S i)) by lia.
  rewrite pageProducts_window, length_firstn, length_skipn. lia.
Qed.

Lemma pageProducts_size_witness :
  1 <= 1 /\
  Z.of_nat (List.length (Products.pageProducts 1 Sample.store)) = 3.
Proof.
  assert (H : 1 <= 1) by lia.
  split; [exact H|].
  exact (pageProducts_size Sample.store 1 H).
Defined.

(** ** Report totals *)

(** One step of the right shift halves the mantissa. *)
Lemma shr_1_halves :
  forall r, 0 <= shr_m r -> shr_m (shr_1 r) = shr_m r / 2.
Proof.
  intros [m rb sb] Hm. simpl in Hm.
  destruct m as [|[q|q|]|q]; simpl; try reflexivity; try lia.
  - apply Z.div_unique with (r := 1); lia.
  - apply Z.div_unique with (r := 0); lia.
Qed.

Lemma shr_steps_divide :
  forall p r,
    0 <= shr_m r ->
    shr_m (iter_pos shr_1 p r) = shr_m r / 2 ^ Zpos p.
Proof.
  assert (Hpow : forall q, 0 < 2 ^ Zpos q) by (intros; apply Z.pow_pos_nonneg; lia).
  induction p as [p IH|p IH|]; intros r Hr; cbn [iter_pos].
  - pose proof (Hpow p).
    assert (H1 : 0 <= shr_m (shr_1 r))
      by (rewrite shr_1_halves by exact Hr; apply Z.div_pos; lia).
    assert (H2 : 0 <= shr_m (iter_pos shr_1 p (shr_1 r)))
      by (rewrite IH by exact H1; apply Z.div_pos; lia).
    rewrite IH by exact H2. rewrite IH by exact H1. rewrite shr_1_halves by exact Hr.
    rewrite !Z.div_div by lia. f_equal.
    replace (Zpos p~1) with (Zpos p + Zpos p + 1) by lia.
    rewrite !Z.pow_add_r, Z.pow_1_r by lia. ring.
  - pose proof (Hpow p).
    assert (H1 : 0 <= shr_m (iter_pos shr_1 p r))
      by (rewrite IH by exact Hr; apply Z.div_pos; lia).
    rewrite IH by exact H1. rewrite IH by exact Hr.
    rewrite Z.div_div by lia. f_equal.
    replace (Zpos p~0) with (Zpos p + Zpos p) by lia.
    rewrite Z.pow_add_r by lia. ring.
  - rewrite shr_1_halves by exact Hr. reflexivity.
Qed.

(** A number of [d] binary digits is at least [2^(d-1)]. *)
Lemma digits2_pos_lower :
  forall m, 2 ^ (Zpos (digits2_pos m) - 1) <= Zpos m.
Proof.
  induction m as [m IH|m IH|]; cbn [digits2_pos]; [| |simpl; lia].
  - rewrite Pos2Z.inj_succ.
    replace (Z.succ (Zpos (digits2_pos m)) - 1) with (Z.succ (Zpos (digits2_pos m) - 1)) by lia.
    rewrite Z.pow_succ_r by lia. lia.
  - rewrite Pos2Z.inj_succ.
    replace (Z.succ (Zpos (digits2_pos m)) - 1) with (Z.succ (Zpos (digits2_pos m) - 1)) by lia.
    rewrite Z.pow_succ_r by lia. lia.
Qed.

Lemma shr_record_of_loc_m :
  forall m l, shr_m (shr_record_of_loc m l) = m.
Proof. intros m [|[]]; reflexivity. Qed.

(** The shift to the exponent of the format keeps a mantissa that is
    not negative so, and gives an exponent in the range of the format. *)
Lemma shr_fexp_nonneg :
  forall m e l,
    0 <= m ->
    0 <= shr_m (fst (shr_fexp Double.prec Double.emax m e l)) /\
    Double.emin <= snd (shr_fexp Double.prec Double.emax m e l).
Proof.
  intros m e l Hm. unfold shr_fexp, shr.
  set (n := fexp Double.prec Double.emax (Zdigits2 m + e) - e).
  assert (Hn : n = Z.max (Zdigits2 m + e - 53) (-1074) - e) by reflexivity.
  unfold Double.emin.
  destruct n as [|p|p] eqn:En; cbn [fst snd]; rewrite ?shr_record_of_loc_m.
  - split; [exact Hm | lia].
  - rewrite shr_steps_divide by (rewrite shr_record_of_loc_m; exact Hm).
    rewrite shr_record_of_loc_m. split; [|lia].
    apply Z.div_pos; [exact Hm | apply Z.pow_pos_nonneg; lia].
  - split; [exact Hm | lia].
Qed.

(** From an exponent in the range of the format the shift leaves a
    positive mantissa positive: nothing is rounded away to zero. *)
Lemma shr_fexp_positive :
  forall m e l,
    0 < m -> Double.emin <= e ->
    0 < shr_m (fst (shr_fexp Double.prec Double.emax m e l)).
Proof.
  intros m e l Hm He. unfold shr_fexp, shr.
  set (n := fexp Double.prec Double.emax (Zdigits2 m + e) - e).
  assert (Hn : n = Z.max (Zdigits2 m + e - 53) (-1074) - e) by reflexivity.
  unfold Double.emin in He.
  destruct m as [|q|q]; try lia. cbn [Zdigits2] in Hn.
  destruct n as [|p|p] eqn:En; cbn [fst]; rewrite ?shr_record_of_loc_m; try lia.
  rewrite shr_steps_divide by (rewrite shr_record_of_loc_m; lia).
  rewrite shr_record_of_loc_m.
  apply Z.div_str_pos. split; [apply Z.pow_pos_nonneg; lia|].
  pose proof (digits2_pos_lower q) as Hd.
  assert (Hle : 2 ^ Zpos p <= 2 ^ (Zpos (digits2_pos q) - 1))
    by (apply Z.pow_le_mono_r; lia).
  lia.
Qed.

Lemma round_nearest_even_grows :
  forall m l, 0 <= m -> m <= round_nearest_even m l.
Proof.
  intros m [|[]] Hm; simpl; try lia. destruct (Z.even m); lia.
Qed.

Lemma binary_round_aux_shape :
  forall s m e l,
    0 <= m -> Double.rounded_with s (binary_round_aux Double.prec Double.emax s m e l).
Proof.
  intros s m e l Hm. unfold binary_round_aux.
  pose proof (shr_fexp_nonneg m e l Hm) as [H1 _].
  destruct (shr_fexp Double.prec Double.emax m e l) as [mrs' e'] eqn:E1.
  cbn [fst] in H1.
  pose proof (round_nearest_even_grows (shr_m mrs') (loc_of_shr_record mrs') H1) as H2.
  set (m2 := round_nearest_even (shr_m mrs') (loc_of_shr_record mrs')) in *.
  assert (Hm2 : 0 <= m2) by lia.
  pose proof (shr_fexp_nonneg m2 e' loc_Exact Hm2) as [H3 H4].
  destruct (shr_fexp Double.prec Double.emax m2 e' loc_Exact) as [mrs'' e''] eqn:E2.
  cbn [fst snd] in H3, H4.
  destruct (shr_m mrs'') as [|q|q]; try lia; cbn [Double.rounded_with]; [reflexivity|].
  destruct (e'' <=? Double.emax - Double.prec); cbn [Double.rounded_with]; [split; [reflexivity|exact H4] | reflexivity].
Qed.

Lemma binary_round_aux_not_zero :
  forall s m e l s',
    0 < m -> Double.emin <= e ->
    binary_round_aux Double.prec Double.emax s m e l <> S754_zero s'.
Proof.
  intros s m e l s' Hm He. unfold binary_round_aux.
  pose proof (shr_fexp_positive m e l Hm He) as H1.
  pose proof (shr_fexp_nonneg m e l ltac:(lia)) as [_ He1].
  destruct (shr_fexp Double.prec Double.emax m e l) as [mrs' e'] eqn:E1.
  cbn [fst snd] in H1, He1.
  pose proof (round_nearest_even_grows (shr_m mrs') (loc_of_shr_record mrs') ltac:(lia)) as H2.
  set (m2 := round_nearest_even (shr_m mrs') (loc_of_shr_record mrs')) in *.
  pose proof (shr_fexp_positive m2 e' loc_Exact ltac:(lia) He1) as H3.
  destruct (shr_fexp Double.prec Double.emax m2 e' loc_Exact) as [mrs'' e''] eqn:E2.
  cbn [fst] in H3.
  destruct (shr_m mrs'') as [|q|q]; try lia.
  destruct (e'' <=? Double.emax - Double.prec); discriminate.
Qed.

Lemma shl_align_exponent :
  forall m e e',
    Double.emin <= e -> Double.emin <= e' ->
    Double.emin <= snd (shl_align m e e').
Proof.
  intros m e e' He He'. unfold shl_align. destruct (e' - e); exact He || exact He'.
Qed.

Lemma binary_round_shape :
  forall s m e, Double.rounded_with s (binary_round Double.prec Double.emax s m e).
Proof.
  intros s m e. unfold binary_round.
  destruct (shl_align m e _) as [mz ez]. apply binary_round_aux_shape. lia.
Qed.

Lemma binary_round_not_zero :
  forall s m e s',
    Double.emin <= e ->
    binary_round Double.prec Double.emax s m e <> S754_zero s'.
Proof.
  intros s m e s' He. unfold binary_round.
  pose proof (shl_align_exponent m e
                (fexp Double.prec Double.emax (Zpos (digits2_pos m) + e)) He) as Hz.
  destruct (shl_align m e _) as [mz ez]. cbn [snd] in Hz.
  apply binary_round_aux_not_zero; [lia|].
  apply Hz. unfold fexp, Double.emin, Double.prec, Double.emax, SpecFloat.emin. lia.
Qed.

Lemma rounded_in_range :
  forall s x, Double.rounded_with s x -> Double.in_range x.
Proof. intros s [| | |? ? ?]; simpl; tauto. Qed.

Lemma rounded_unsigned :
  forall x, Double.rounded_with false x -> Double.unsigned x.
Proof. intros [| | |? ? ?]; simpl; tauto. Qed.

(** Every product is in range. *)
Lemma mul_in_range :
  forall x y, Double.in_range (Double.mul x y).
Proof.
  intros [sx|sx| |sx mx ex] [sy|sy| |sy my ey]; simpl; try exact I.
  apply (rounded_in_range (xorb sx sy)), binary_round_aux_shape. lia.
Qed.

Lemma add_in_range :
  forall x y, Double.in_range x -> Double.in_range y -> Double.in_range (Double.add x y).
Proof.
  intros [sx|sx| |sx mx ex] [sy|sy| |sy my ey] Hx Hy; simpl; try exact I;
    try exact Hx; try exact Hy;
    try (destruct sx, sy; exact I).
  unfold binary_normalize.
  destruct (_ + _) as [|q|q]; [exact I | |].
  - apply (rounded_in_range false), binary_round_shape.
  - apply (rounded_in_range true), binary_round_shape.
Qed.

(** A sum is the zero with the minus sign only when both summands are:
    a sum that cancels is the positive zero, and no sum of doubles is rounded
    to zero. *)
Lemma add_negative_zero :
  forall x y,
    Double.in_range x -> Double.in_range y ->
    Double.add x y = S754_zero true -> x = S754_zero true.
Proof.
  intros [sx|sx| |sx mx ex] [sy|sy| |sy my ey] Hx Hy; simpl;
    try discriminate; try (destruct sx, sy; discriminate || tauto); try tauto.
  simpl in Hx, Hy. unfold binary_normalize.
  destruct (_ + _) as [|q|q]; [discriminate | |].
  - intros H. pose proof (binary_round_shape false q (Z.min ex ey)) as Hs.
    rewrite H in Hs. simpl in Hs. discriminate Hs.
  - intros H. exfalso.
    apply (binary_round_not_zero true q (Z.min ex ey) true); [lia | exact H].
Qed.

(** Adding a zero to a Number other than the negative zero changes
    nothing. *)
Lemma add_zero_r :
  forall x s, x <> S754_zero true -> Double.add x (S754_zero s) = x.
Proof.
  intros [[]|sx| |sx mx ex] [] Hx; simpl; try reflexivity; now contradiction Hx.
Qed.

Lemma of_Z_unsigned :
  forall n, 0 <= n -> Double.unsigned (Double.of_Z n).
Proof.
  intros [|q|q] Hn; try lia; [reflexivity|].
  apply rounded_unsigned. unfold Double.of_Z, binary_normalize.
  apply binary_round_shape.
Qed.

Lemma of_hundredths_unsigned :
  forall h, 0 <= h -> Double.unsigned (Double.of_hundredths h).
Proof.
  intros [|q|q] Hh; try lia; [reflexivity|].
  apply rounded_unsigned. unfold Double.of_hundredths, SFdiv.
  destruct (SFdiv_core_binary Double.prec Double.emax (Zpos q) 0 100 0)
    as [[mz ez] lz] eqn:E.
  cbn [xorb]. apply binary_round_aux_shape.
  unfold SFdiv_core_binary in E.
  set (m' := match _ - _ with Z0 => Zpos q | Zpos _ => Z.shiftl (Zpos q) _ | Zneg _ => 0 end) in E.
  assert (Hm' : 0 <= m').
  { unfold m'. destruct (_ - _); try lia. apply Z.shiftl_nonneg. lia. }
  pose proof (Z.div_pos m' 100 Hm' ltac:(lia)) as Hq.
  unfold Z.div in Hq. destruct (Z.div_eucl m' 100) as [qq rr].
  inversion E; subst. exact Hq.
Qed.

Lemma mul_unsigned :
  forall x y,
    Double.unsigned x -> Double.unsigned y ->
    Double.isFinite x = true -> Double.isFinite y = true ->
    Double.unsigned (Double.mul x y).
Proof.
  intros [sx|sx| |sx mx ex] [sy|sy| |sy my ey] Hx Hy Fx Fy; simpl in *;
    try discriminate; try contradiction; subst; try reflexivity.
  apply rounded_unsigned. cbn [xorb]. apply binary_round_aux_shape. lia.
Qed.

Lemma add_unsigned :
  forall x y,
    Double.unsigned x -> Double.unsigned y -> Double.unsigned (Double.add x y).
Proof.
  intros [sx|sx| |sx mx ex] [sy|sy| |sy my ey] Hx Hy; simpl in *;
    try contradiction; subst; try reflexivity.
  unfold binary_normalize. cbn [cond_Zopp Z.add].
  apply rounded_unsigned, binary_round_shape.
Qed.

Lemma unsigned_not_below_zero :
  forall x, Double.unsigned x -> Double.leb Double.zero x = true.
Proof.
  intros [sx|sx| |sx mx ex] Hx; simpl in *; try contradiction; subst; reflexivity.
Qed.

Lemma totalValue_fold_in_range :
  forall products start,
    Double.in_range start -> start <> S754_zero true ->
    let total :=
      fold_left (fun sum product => Double.add sum (Observe.rounded_value product))
                products start in
    Double.in_range total /\ total <> S754_zero true.
Proof.
  induction products as [|p rest IH]; intros start Hr Hz; [split; assumption|].
  cbn [fold_left]. apply IH.
  - apply add_in_range; [exact Hr | apply mul_in_range].
  - intros H. apply Hz.
    exact (add_negative_zero _ _ Hr (mul_in_range _ _) H).
Qed.

Lemma out_of_stock_value_is_zero :
  forall p,
    stock_quantity p = 0 ->
    Double.isFinite (Double.of_hundredths (price p)) = true ->
    exists s, Observe.rounded_value p = S754_zero s.
Proof.
  intros p Hs Hf. unfold Observe.rounded_value. rewrite Hs.
  change (Double.of_Z 0) with (S754_zero false).
  destruct (Double.of_hundredths (price p)) as [s|s| |s m e]; try discriminate Hf.
  - now exists (xorb s false).
  - now exists (xorb s false).
Qed.

Lemma totalValue_skip_out_of_stock :
  forall products start,
    Double.in_range start -> start <> S754_zero true ->
    (forall p, In p products -> stock_quantity p = 0 ->
       Double.isFinite (Double.of_hundredths (price p)) = true) ->
    fold_left (fun sum product => Double.add sum (Observe.rounded_value product))
              (filter (fun p => negb (stock_quantity p =? 0)) products) start =
    fold_left (fun sum product => Double.add sum (Observe.rounded_value product))
              products start.
Proof.
  induction products as [|p rest IH]; intros start Hr Hz Hfin; [reflexivity|].
  cbn [filter fold_left].
  assert (Hrest : forall q, In q rest -> stock_quantity q = 0 ->
                    Double.isFinite (Double.of_hundredths (price q)) = true)
    by (intros q Hq; apply Hfin; now right).
  destruct (stock_quantity p =? 0) eqn:E; cbn [negb].
  - apply Z.eqb_eq in E.
    destruct (out_of_stock_value_is_zero p E (Hfin p (or_introl eq_refl) E)) as [s Hv].
    rewrite Hv, (add_zero_r start s Hz). now apply IH.
  - cbn [fold_left]. apply IH; [| |exact Hrest].
    + apply add_in_range; [exact Hr | apply mul_in_range].
    + intros H. apply Hz. exact (add_negative_zero _ _ Hr (mul_in_range _ _) H).
Qed.

(** X11.  Products that are out of stock add nothing to the total value:
    leaving them out of the list gives the same total, provided the price of
    every such product is a finite Number. *)
Theorem totalValue_ignores_out_of_stock :
  forall products,
    (forall p, In p products -> stock_quantity p = 0 ->
       Double.isFinite (Double.of_hundredths (price p)) = true) ->
    Reports.totalValue (filter (fun p => negb (stock_quantity p =? 0)) products) =
    Reports.totalValue products.
Proof.
  intros products Hfin.
  apply (totalValue_skip_out_of_stock products Double.zero); [exact I | discriminate | exact Hfin].
Qed.

Lemma totalValue_ignores_out_of_stock_witness :
  (forall p, In p Sample.store -> stock_quantity p = 0 ->
     Double.isFinite (Double.of_hundredths (price p)) = true) /\
  Reports.totalValue (filter (fun p => negb (stock_quantity p =? 0)) Sample.store) =
  Reports.totalValue Sample.store.
Proof.
  assert (H : forall p, In p Sample.store -> stock_quantity p = 0 ->
     Double.isFinite (Double.of_hundredths (price p)) = true).
  { intros p [<-|[<-|[<-|[]]]] _; vm_compute; reflexivity. }
  split; [exact H|].
  exact (totalValue_ignores_out_of_stock Sample.store H).
Defined.

(** A price beyond the doubles is the infinity; with a stock of 0 its
    value is NaN, and so is the total. *)
Example totalValue_with_infinite_price :
  Reports.totalValue [Product 9 "Z9" "Overflow" "Supplies" (10 ^ 400) 0 None] = S754_nan /\
  Reports.totalValue
    (filter (fun p => negb (stock_quantity p =? 0))
            [Product 9 "Z9" "Overflow" "Supplies" (10 ^ 400) 0 None]) = Double.zero.
Proof. split; vm_compute; reflexivity. Qed.

Lemma totalValue_fold_unsigned :
  forall products start,
    Double.unsigned start ->
    (forall p, In p products -> Double.unsigned (Observe.rounded_value p)) ->
    Double.unsigned
      (fold_left (fun sum product => Double.add sum (Observe.rounded_value product))
                 products start).
Proof.
  induction products as [|p rest IH]; intros start Hs Hv; [exact Hs|].
  cbn [fold_left]. apply IH.
  - apply add_unsigned; [exact Hs | apply Hv; now left].
  - intros q Hq. apply Hv. now right.
Qed.

(** X12.  When no price and no stock quantity is negative, and all of
    them are finite Numbers, the total value is a Number that is not below
    zero. *)
Theorem totalValue_nonnegative :
  forall products,
    (forall p, In p products ->
       0 <= price p /\ 0 <= stock_quantity p /\
       Double.isFinite (Double.of_hundredths (price p)) = true /\
       Double.isFinite (Double.of_Z (stock_quantity p)) = true) ->
    Double.leb Double.zero (Reports.totalValue products) = true.
Proof.
  intros products H. apply unsigned_not_below_zero.
  apply (totalValue_fold_unsigned products Double.zero); [reflexivity|].
  intros p Hp. destruct (H p Hp) as (Hprice & Hstock & Fprice & Fstock).
  apply mul_unsigned; try assumption.
  - now apply of_hundredths_unsigned.
  - now apply of_Z_unsigned.
Qed.

Lemma totalValue_nonnegative_witness :
  (forall p, In p Sample.store ->
     0 <= price p /\ 0 <= stock_quantity p /\
     Double.isFinite (Double.of_hundredths (price p)) = true /\
     Double.isFinite (Double.of_Z (stock_quantity p)) = true) /\
  Double.leb Double.zero (Reports.totalValue Sample.store) = true.
Proof.
  assert (H : forall p, In p Sample.store ->
     0 <= price p /\ 0 <= stock_quantity p /\
     Double.isFinite (Double.of_hundredths (price p)) = true /\
     Double.isFinite (Double.of_Z (stock_quantity p)) = true).
  { intros p [<-|[<-|[<-|[]]]]; repeat split; try (simpl; lia); vm_compute; reflexivity. }
  split; [exact H|].
  exact (totalValue_nonnegative Sample.store H).
Defined.

(** ** Line feeds and commas in the export *)

Section Counting.

Variable sep : ascii.

Lemma split_on_length :
  forall s, List.length (Text.split_on sep s) = S (Count.count_char sep s).
Proof.
  induction s as [|c s IH]; [reflexivity|].
  cbn [Text.split_on Count.count_char].
  destruct (Ascii.eqb c sep).
  - simpl. now rewrite IH.
  - pose proof (split_on_nonempty sep s) as Hne.
    destruct (Text.split_on sep s); [contradiction|]. simpl in *. exact IH.
Qed.

Lemma count_char_app :
  forall a b,
    Count.count_char sep (a ++ b) =
    (Count.count_char sep a + Count.count_char sep b)%nat.
Proof.
  induction a as [|c a IH]; intros b; [reflexivity|].
  cbn [append Count.count_char]. rewrite IH. lia.
Qed.

Lemma count_char_none :
  forall s, Text.contains_char sep s = false -> Count.count_char sep s = O.
Proof.
  induction s as [|c s IH]; [reflexivity|].
  cbn [Text.contains_char Count.count_char]. intros H.
  apply orb_false_iff in H. destruct H as [Hc Hs].
  now rewrite Hc, (IH Hs).
Qed.

End Counting.

Lemma count_newline_csvRow :
  forall p,
    Count.count_char Text.newline (Reports.csvRow p) =
    Count.in_text_fields Text.newline p.
Proof.
  intros p. unfold Reports.csvRow, Reports.csvCells, Count.in_text_fields.
  rewrite !join_comma_cons. cbn [Text.join].
  repeat (rewrite count_char_app || cbn [Count.count_char]).
  rewrite (count_char_none _ _ (no_sep_in_show_hundredths _ newline_not_numeric _)).
  rewrite (count_char_none _ _ (no_sep_in_show_Z _ newline_not_numeric _)).
  rewrite (count_char_none Text.newline (Reports.getStatusText (stock_quantity p)))
    by (apply getStatusText_plain; right; reflexivity).
  change (Ascii.eqb Text.comma Text.newline) with false.
  change (Count.count_char Text.newline Text.dq) with O.
  cbv iota. lia.
Qed.

Lemma count_newline_lines :
  forall rows first,
    Count.count_char Text.newline (Text.join Text.nl (first :: rows)) =
    (Count.count_char Text.newline first +
     List.length rows + list_sum (map (Count.count_char Text.newline) rows))%nat.
Proof.
  induction rows as [|r rows IH]; intros first.
  - cbn [Text.join List.length map list_sum]. simpl. lia.
  - rewrite join_nl_cons, count_char_app. cbn [Count.count_char].
    rewrite Ascii.eqb_refl, IH. cbn [List.length map list_sum]. simpl. lia.
Qed.

(** X13.  The exported text has one line for the header, one for every
    product, and one more for every line feed that occurs in a sku, a name
    or a category: a line feed in a text field breaks the row in two. *)
Theorem exportData_line_count :
  forall products,
    List.length (Text.split_on Text.newline (Reports.csvContent products)) =
    (S (List.length products) +
     list_sum (map (Count.in_text_fields Text.newline) products))%nat.
Proof.
  intros products. rewrite split_on_length. unfold Reports.csvContent.
  rewrite count_newline_lines, length_map, map_map.
  rewrite (map_ext _ (Count.in_text_fields Text.newline))
    by (intros; apply count_newline_csvRow).
  change (Count.count_char Text.newline (Text.join "," Reports.headers)) with O.
  lia.
Qed.

(** X14.  Cut at its commas, the row of a product has six fields and one
    more for every comma that occurs in its sku, its name or its category:
    the quotes around the name do not keep its commas from separating. *)
Theorem csvRow_field_count :
  forall p,
    List.length (Text.split_on Text.comma (Reports.csvRow p)) =
    (6 + Count.in_text_fields Text.comma p)%nat.
Proof.
  intros p. rewrite split_on_length.
  unfold Reports.csvRow, Reports.csvCells, Count.in_text_fields.
  rewrite !join_comma_cons. cbn [Text.join].
  repeat (rewrite count_char_app || cbn [Count.count_char]).
  rewrite (count_char_none _ _ (no_sep_in_show_hundredths _ comma_not_numeric _)).
  rewrite (count_char_none _ _ (no_sep_in_show_Z _ comma_not_numeric _)).
  rewrite (count_char_none Text.comma (Reports.getStatusText (stock_quantity p)))
    by (apply getStatusText_plain; left; reflexivity).
  rewrite Ascii.eqb_refl.
  change (Count.count_char Text.comma Text.dq) with O.
  lia.
Qed.

(** ** Stock levels below zero *)

(** X15.  A stock quantity below zero is shown as low stock by every
    copy of the classification. *)
Theorem negative_stock_is_low_stock :
  forall stock,
    stock < 0 ->
    ProductsPage.getStatusBadge stock = status_badge LowStock /\
    Products.getStatusClass stock = status_class LowStock /\
    Products.getStatusText stock = status_text LowStock /\
    Reports.getStatusText stock = status_text LowStock.
Proof.
  intros stock Hneg.
  unfold ProductsPage.getStatusBadge, Products.getStatusClass,
    Products.getStatusText, Reports.getStatusText.
  destruct (stock =? 0) eqn:E0; [lia|].
  destruct (stock <=? 10) eqn:E1; [|lia].
  destruct (stock <? 10) eqn:E2; [|lia].
  repeat split; reflexivity.
Qed.

Lemma negative_stock_is_low_stock_witness :
  -1 < 0 /\ Products.getStatusText (-1) = status_text LowStock.
Proof.
  assert (H : -1 < 0) by lia.
  split; [exact H|].
  exact (proj1 (proj2 (proj2 (negative_stock_is_low_stock (-1) H)))).
Defined.

(** ** Ages on the dashboard *)

(** X16.  formatTimeAgo by the age of the date: under a minute, and for
    a date in the future, it says Just now; then it counts whole minutes from
    1 to 59, whole hours from 1 to 23, and whole days from 1 on, always with
    the plural word. *)
Theorem formatTimeAgo_buckets :
  forall age,
    (age < 60000 -> Dashboard.formatTimeAgo age = "Just now") /\
    (60000 <= age < 3600000 ->
       Dashboard.formatTimeAgo age = Text.show_Z (age / 60000) ++ " minutes ago" /\
       1 <= age / 60000 <= 59) /\
    (3600000 <= age < 86400000 ->
       Dashboard.formatTimeAgo age = Text.show_Z (age / 3600000) ++ " hours ago" /\
       1 <= age / 3600000 <= 23) /\
    (86400000 <= age ->
       Dashboard.formatTimeAgo age = Text.show_Z (age / 86400000) ++ " days ago" /\
       1 <= age / 86400000).
Proof.
  intros age. unfold Dashboard.formatTimeAgo. cbv zeta.
  assert (Hm : age / 1000 / 60 = age / 60000) by (rewrite Z.div_div by lia; reflexivity).
  assert (Hh : age / 1000 / 3600 = age / 3600000) by (rewrite Z.div_div by lia; reflexivity).
  assert (Hd : age / 1000 / 86400 = age / 86400000) by (rewrite Z.div_div by lia; reflexivity).
  rewrite Hm, Hh, Hd.
  pose proof (Z.div_mod age 1000 ltac:(lia)) as D1.
  pose proof (Z.mod_pos_bound age 1000 ltac:(lia)) as B1.
  pose proof (Z.div_mod age 60000 ltac:(lia)) as D2.
  pose proof (Z.mod_pos_bound age 60000 ltac:(lia)) as B2.
  pose proof (Z.div_mod age 3600000 ltac:(lia)) as D3.
  pose proof (Z.mod_pos_bound age 3600000 ltac:(lia)) as B3.
  pose proof (Z.div_mod age 86400000 ltac:(lia)) as D4.
  pose proof (Z.mod_pos_bound age 86400000 ltac:(lia)) as B4.
  destruct (age / 1000 <? 60) eqn:E1;
    destruct (age / 1000 <? 3600) eqn:E2;
    destruct (age / 1000 <? 86400) eqn:E3;
    repeat split; intros; try reflexivity; try lia.
Qed.

(** ** debounce *)

Section Debounced.

Context {Args : Type}.

Lemma call_pending :
  forall (args : Args) (e : Debounce.env Args),
    Debounce.one_pending e ->
    Debounce.timers (Debounce.call args e) = [(Debounce.next_id e, args)] /\
    Debounce.timeout (Debounce.call args e) = Some (Debounce.next_id e) /\
    Debounce.invoked (Debounce.call args e) = Debounce.invoked e.
Proof.
  intros args e [Hnone | (id & a & Hts & Hto)]; unfold Debounce.call; simpl.
  - rewrite Hnone. destruct (Debounce.timeout e); repeat split; reflexivity.
  - rewrite Hts, Hto. simpl. rewrite Nat.eqb_refl. repeat split; reflexivity.
Qed.

Lemma call_one_pending :
  forall (args : Args) (e : Debounce.env Args),
    Debounce.one_pending e -> Debounce.one_pending (Debounce.call args e).
Proof.
  intros args e H. destruct (call_pending args e H) as (Hts & Hto & _).
  right. now exists (Debounce.next_id e), args.
Qed.

Lemma fire_one_pending :
  forall id (e : Debounce.env Args),
    Debounce.one_pending e -> Debounce.one_pending (Debounce.fire id e).
Proof.
  intros id e H. unfold Debounce.fire.
  destruct H as [Hnone | (i & a & Hts & Hto)].
  - rewrite Hnone. simpl. now left.
  - rewrite Hts. simpl. destruct (Nat.eqb i id) eqn:E.
    + left. simpl. now destruct (Debounce.timeout e).
    + right. exists i, a. now rewrite Hts.
Qed.

(** X17.  However calls of the debounced function and firing timers
    follow each other, at most one timer is set at any time, and it is the
    one that the last call has set. *)
Theorem debounce_one_timer :
  forall (evs : list (Debounce.event Args)) first_id,
    let e := Debounce.run evs (Debounce.start first_id) in
    (List.length (Debounce.timers e) <= 1)%nat /\
    (forall id args, In (id, args) (Debounce.timers e) -> Debounce.timeout e = Some id).
Proof.
  intros evs first_id e.
  assert (H : Debounce.one_pending e).
  { unfold e, Debounce.run.
    assert (Hstart : Debounce.one_pending (Debounce.start (Args := Args) first_id)) by now left.
    revert Hstart. generalize (Debounce.start (Args := Args) first_id).
    induction evs as [|ev evs IH]; intros e0 H0; [exact H0|].
    simpl. apply IH. destruct ev; [now apply call_one_pending | now apply fire_one_pending]. }
  destruct H as [Hnone | (i & a & Hts & Hto)].
  - rewrite Hnone. split; [simpl; lia | intros ? ? []].
  - rewrite Hts. split; [simpl; lia|].
    intros id args [Heq|[]]. inversion Heq; subst. exact Hto.
Qed.

Lemma run_calls :
  forall (calls : list Args) last e,
    Debounce.one_pending e ->
    let e' := Debounce.run (map Debounce.Call calls ++ [Debounce.Call last])%list e in
    exists id,
      Debounce.timers e' = [(id, last)] /\
      Debounce.timeout e' = Some id /\
      Debounce.invoked e' = Debounce.invoked e.
Proof.
  induction calls as [|c calls IH]; intros last e H.
  - simpl. exists (Debounce.next_id e). apply (call_pending last e H).
  - simpl. destruct (call_pending c e H) as (_ & _ & Hinv).
    destruct (IH last (Debounce.call c e) (call_one_pending c e H)) as (id & Hts & Hto & Hi).
    exists id. split; [exact Hts|]. split; [exact Hto|].
    unfold Debounce.run in *. rewrite Hi. exact Hinv.
Qed.

(** X18.  Of calls that follow each other before a timer fires, only the
    last takes effect: one timer is left, and when it fires [func] runs once,
    with the arguments of the last call, and no timer is left. *)
Theorem debounce_burst_runs_last :
  forall (calls : list Args) last first_id,
    let e := Debounce.run (map Debounce.Call calls ++ [Debounce.Call last])%list
                          (Debounce.start first_id) in
    Debounce.invoked e = [] /\
    exists id,
      Debounce.timers e = [(id, last)] /\
      Debounce.invoked (Debounce.fire id e) = [last] /\
      Debounce.timers (Debounce.fire id e) = [].
Proof.
  intros calls last first_id e.
  destruct (run_calls calls last (Debounce.start first_id) (or_introl eq_refl))
    as (id & Hts & Hto & Hinv).
  fold e in Hts, Hto, Hinv.
  split; [exact Hinv|].
  exists id. split; [exact Hts|].
  unfold Debounce.fire. rewrite Hts. simpl. rewrite Nat.eqb_refl. simpl.
  rewrite Hinv, Hto. split; reflexivity.
Qed.

End Debounced.

(** ** The options of a request *)

Section Objects.

Context {V : Type}.

Lemma lookup_set_same :
  forall key (v : V) o, Fetch.lookup key (Fetch.set key v o) = Some v.
Proof.
  intros key v. induction o as [|[k w] rest IH]; simpl.
  - now rewrite String.eqb_refl.
  - destruct (String.eqb k key) eqn:E; simpl; rewrite E; [reflexivity | exact IH].
Qed.

Lemma lookup_set_other :
  forall key other (v : V) o,
    other <> key -> Fetch.lookup other (Fetch.set key v o) = Fetch.lookup other o.
Proof.
  intros key other v o Hne. induction o as [|[k w] rest IH]; simpl.
  - destruct (String.eqb key other) eqn:E; [|reflexivity].
    apply String.eqb_eq in E. now contradiction Hne.
  - destruct (String.eqb k key) eqn:E; simpl.
    + apply String.eqb_eq in E. subst k.
      destruct (String.eqb key other) eqn:F; [|reflexivity].
      apply String.eqb_eq in F. now contradiction Hne.
    + destruct (String.eqb k other); [reflexivity | exact IH].
Qed.

Lemma lookup_absent :
  forall key (o : Fetch.object V), ~ In key (map fst o) -> Fetch.lookup key o = None.
Proof.
  intros key. induction o as [|[k w] rest IH]; simpl; intros H; [reflexivity|].
  destruct (String.eqb k key) eqn:E.
  - apply String.eqb_eq in E. exfalso. apply H. now left.
  - apply IH. intros Hin. apply H. now right.
Qed.

(** A property of the spread object comes from [more] when [more] has it
    and from [base] otherwise. *)
Lemma lookup_spread :
  forall (more base : Fetch.object V) key,
    NoDup (map fst more) ->
    Fetch.lookup key (Fetch.spread base more) =
    match Fetch.lookup key more with
    | Some v => Some v
    | None => Fetch.lookup key base
    end.
Proof.
  unfold Fetch.spread.
  induction more as [|[k w] rest IH]; intros base key Hnd; [reflexivity|].
  simpl in Hnd. inversion Hnd as [|? ? Hnot Hrest]; subst.
  cbn [fold_left fst snd Fetch.lookup]. rewrite (IH _ key Hrest).
  destruct (String.eqb k key) eqn:E.
  - apply String.eqb_eq in E. subst k.
    rewrite (lookup_absent key rest Hnot). apply lookup_set_same.
  - destruct (Fetch.lookup key rest); [reflexivity|].
    apply lookup_set_other. intros ->. now rewrite String.eqb_refl in E.
Qed.

End Objects.

(** X19.  When the options of a request carry a [headers] property, the
    config carries exactly that property: the spread of the options writes
    over the merged headers, so the default Content-Type is sent only if the
    caller's own headers hold it. *)
Theorem request_headers_overwritten :
  forall options v,
    NoDup (map fst options) ->
    Fetch.lookup "headers" options = Some v ->
    Fetch.lookup "headers" (Fetch.config options) = Some v.
Proof.
  intros options v Hnd Hh. unfold Fetch.config.
  rewrite lookup_spread by exact Hnd. now rewrite Hh.
Qed.

Lemma request_headers_overwritten_witness :
  NoDup (map fst [("method", Fetch.Str "POST");
                  ("headers", Fetch.Headers [("Accept", "text/csv")])]) /\
  Fetch.lookup "headers" [("method", Fetch.Str "POST");
                          ("headers", Fetch.Headers [("Accept", "text/csv")])]
    = Some (Fetch.Headers [("Accept", "text/csv")]) /\
  Fetch.lookup "headers"
    (Fetch.config [("method", Fetch.Str "POST");
                   ("headers", Fetch.Headers [("Accept", "text/csv")])])
    = Some (Fetch.Headers [("Accept", "text/csv")]).
Proof.
  assert (Hnd : NoDup (map fst [("method", Fetch.Str "POST");
                  ("headers", Fetch.Headers [("Accept", "text/csv")])])).
  { simpl. repeat constructor; simpl; intuition discriminate. }
  assert (Hh : Fetch.lookup "headers" [("method", Fetch.Str "POST");
                          ("headers", Fetch.Headers [("Accept", "text/csv")])]
               = Some (Fetch.Headers [("Accept", "text/csv")])) by reflexivity.
  split; [exact Hnd|]. split; [exact Hh|].
  exact (request_headers_overwritten _ _ Hnd Hh).
Defined.

(** X20.  When the options carry no [headers], as with every call the
    client itself makes, the config has the JSON Content-Type as its only
    header, and every other property of the config is the one of the
    options. *)
Theorem request_default_headers :
  forall options,
    NoDup (map fst options) ->
    Fetch.lookup "headers" options = None ->
    Fetch.lookup "headers" (Fetch.config options) =
      Some (Fetch.Headers [("Content-Type", "application/json")]) /\
    (forall key, key <> "headers" ->
       Fetch.lookup key (Fetch.config options) = Fetch.lookup key options).
Proof.
  intros options Hnd Hh. unfold Fetch.config. split.
  - rewrite lookup_spread by exact Hnd. rewrite Hh. reflexivity.
  - intros key Hkey. rewrite lookup_spread by exact Hnd.
    destruct (Fetch.lookup key options); [reflexivity|].
    cbn [Fetch.lookup]. destruct (String.eqb "headers" key) eqn:E; [|reflexivity].
    apply String.eqb_eq in E. now contradiction Hkey.
Qed.

Lemma request_default_headers_witness :
  NoDup (map fst (Fetch.createProduct_options "{}")) /\
  Fetch.lookup "headers" (Fetch.createProduct_options "{}") = None /\
  Fetch.lookup "headers" (Fetch.config (Fetch.createProduct_options "{}")) =
    Some (Fetch.Headers [("Content-Type", "application/json")]) /\
  Fetch.lookup "method" (Fetch.config (Fetch.createProduct_options "{}")) =
    Some (Fetch.Str "POST").
Proof.
  assert (Hnd : NoDup (map fst (Fetch.createProduct_options "{}"))).
  { simpl. repeat constructor; simpl; intuition discriminate. }
  assert (Hh : Fetch.lookup "headers" (Fetch.createProduct_options "{}") = None)
    by reflexivity.
  split; [exact Hnd|]. split; [exact Hh|].
  destruct (request_default_headers _ Hnd Hh) as [Hheaders Hother].
  split; [exact Hheaders|].
  apply (Hother "method"). discriminate.
Defined.

(** ** Every product on one page *)

Section Windows.

Context {A : Type}.

Lemma in_take :
  forall (n : nat) (l : list A) x, In x (firstn n l) -> In x l.
Proof.
  induction n as [|n IH]; intros [|y l] x H; simpl in *; try contradiction.
  destruct H as [H|H]; [now left | right; now apply IH].
Qed.

Lemma in_drop :
  forall (n : nat) (l : list A) x, In x (skipn n l) -> In x l.
Proof.
  induction n as [|n IH]; intros [|y l] x H; simpl in *; try contradiction;
    try exact H.
  right. now apply IH.
Qed.

Lemma nodup_app_disjoint :
  forall (l1 l2 : list A) x, NoDup (l1 ++ l2) -> In x l1 -> ~ In x l2.
Proof.
  induction l1 as [|y l1 IH]; intros l2 x Hnd Hin; [contradiction|].
  simpl in Hnd. inversion Hnd as [|? ? Hnot Hrest]; subst.
  destruct Hin as [->|Hin].
  - intros H2. apply Hnot, in_or_app. now right.
  - now apply IH.
Qed.

(** In a list without repetitions an earlier window of ten and a later
    one share no element. *)
Lemma windows_disjoint :
  forall (l : list A) (i j : nat) x,
    NoDup l -> (i < j)%nat ->
    In x (firstn 10 (skipn (10 * i) l)) ->
    ~ In x (firstn 10 (skipn (10 * j) l)).
Proof.
  intros l i j x Hnd Hij Hi Hj.
  assert (Hpre : In x (firstn (10 * i + 10) l)).
  { rewrite <- take_then_next. apply in_or_app. now right. }
  assert (Hsuf : In x (skipn (10 * i + 10) l)).
  { apply in_take in Hj.
    replace (10 * j)%nat with ((10 * j - (10 * i + 10)) + (10 * i + 10))%nat in Hj by lia.
    rewrite <- skipn_skipn in Hj. now apply in_drop in Hj. }
  rewrite <- (firstn_skipn (10 * i + 10) l) in Hnd.
  exact (nodup_app_disjoint _ _ x Hnd Hpre Hsuf).
Qed.

End Windows.

Lemma pages_cover :
  forall products,
    List.concat (map (fun page => Products.pageProducts page products)
                     (Observe.pageNumbers (Observe.totalPages products))) = products.
Proof.
  intros products. unfold Observe.pageNumbers. rewrite pages_up_to.
  apply take_more_than_length.
  pose proof (ceil_div_10_spec (Z.of_nat (List.length products))) as Hc.
  unfold Observe.totalPages, Products.productsPerPage. lia.
Qed.

(** X21.  In a list without repeated products every product is shown on
    exactly one page: on one of the pages 1 .. ceil(length / 10), and on no
    other page from 1 on. *)
Theorem product_on_exactly_one_page :
  forall products x,
    NoDup products -> In x products ->
    exists page,
      1 <= page <= Observe.totalPages products /\
      In x (Products.pageProducts page products) /\
      (forall other, 1 <= other ->
         In x (Products.pageProducts other products) -> other = page).
Proof.
  intros products x Hnd Hin.
  rewrite <- (pages_cover products) in Hin.
  apply in_concat in Hin. destruct Hin as [slice [Hslice Hx]].
  apply in_map_iff in Hslice. destruct Hslice as [page [<- Hpage]].
  unfold Observe.pageNumbers in Hpage.
  apply in_map_iff in Hpage. destruct Hpage as [n [<- Hn]].
  apply in_seq in Hn.
  exists (Z.of_nat n). split.
  - pose proof (ceil_div_10_spec (Z.of_nat (List.length products))) as Hc.
    unfold Observe.totalPages, Products.productsPerPage in *. lia.
  - split; [exact Hx|].
    intros other Hother Hox.
    destruct (Z_of_nat_complete (other - 1)) as [j Hj]; [lia|].
    destruct n as [|i]; [lia|].
    replace other with (Z.of_nat (S j)) in * by lia.
    rewrite pageProducts_window in Hx, Hox.
    destruct (Nat.lt_trichotomy i j) as [Hlt|[Heq|Hgt]].
    + exfalso. exact (windows_disjoint products i j x Hnd Hlt Hx Hox).
    + now subst.
    + exfalso. exact (windows_disjoint products j i x Hnd Hgt Hox Hx).
Qed.

Lemma product_on_exactly_one_page_witness :
  NoDup Sample.store /\ In Sample.a2 Sample.store /\
  exists page,
    1 <= page <= Observe.totalPages Sample.store /\
    In Sample.a2 (Products.pageProducts page Sample.store) /\
    (forall other, 1 <= other ->
       In Sample.a2 (Products.pageProducts other Sample.store) -> other = page).
Proof.
  assert (Hnd : NoDup Sample.store).
  { unfold Sample.store. repeat constructor; simpl; intuition discriminate. }
  assert (Hin : In Sample.a2 Sample.store) by (simpl; tauto).
  split; [exact Hnd|]. split; [exact Hin|].
  exact (product_on_exactly_one_page Sample.store Sample.a2 Hnd Hin).
Defined.

(** ** The badge and the status table *)

(** X22.  Among the stock quantities from 0 on, 10 is the only one for
    which the badge of the products page script is not the badge of the
    status that the status table gives. *)
Theorem getStatusBadge_differs_only_at_10 :
  forall stock,
    0 <= stock ->
    (ProductsPage.getStatusBadge stock = status_badge (status_table stock) <->
     stock <> 10).
Proof.
  intros stock Hnn. split.
  - intros H ->. vm_compute in H. discriminate H.
  - intros Hne. unfold ProductsPage.getStatusBadge, status_table.
    destruct (stock =? 0) eqn:E0; [reflexivity|].
    destruct (stock <=? 10) eqn:E1, (stock <=? 9) eqn:E2; try reflexivity; lia.
Qed.

Lemma getStatusBadge_differs_only_at_10_witness :
  0 <= 5 /\
  (ProductsPage.getStatusBadge 5 = status_badge (status_table 5) <-> 5 <> 10).
Proof.
  assert (H : 0 <= 5) by lia.
  split; [exact H|].
  exact (getStatusBadge_differs_only_at_10 5 H).
Defined.

(** ** Reading back what getProducts sends *)

Lemma decode_encode_byte :
  forall c rest,
    FormDecode.decode (URLSearchParams.encode_byte c ++ rest) =
    String c (FormDecode.decode rest).
Proof.
  intros [[] [] [] [] [] [] [] []] rest; reflexivity.
Qed.

(** X23.  A filter value that getProducts puts in the query string is
    read back unchanged by the decoding of the URL standard, whatever bytes
    it holds. *)
Theorem encode_decode :
  forall s, FormDecode.decode (URLSearchParams.encode s) = s.
Proof.
  induction s as [|c s IH]; [reflexivity|].
  cbn [URLSearchParams.encode]. rewrite decode_encode_byte. now rewrite IH.
Qed.
